(** * Database access server (package db): admission, dispatch and lifecycle

    A shallow embedding of the Go package [db] (server.go): configuration
    validation, server construction, the heartbeat info-provider, the
    lifecycle operations and the connection path
    [HandleConnection] -> [handleConnection] -> [authorize] / [dispatch].

    Go values are modelled as follows.
    - A nil-able pointer, interface or func value is an [option].
    - A pair [(T, error)] returned by a fallible function is a [result T].
    - A function that performs calls to collaborators is a computation in
      the monad [M]: it yields the list of calls it made, in order, and
      either returns a value or panics.  Deferred calls run on both exits.
    - A [go f()] statement is recorded as the call [EvGo g] where [g]
      names the function literal that was started.
    - The two worker tables are [gmap]s keyed by the descriptor name; the
      order in which [range] visits them is a parameter. *)

From Stdlib Require Import ZArith.
From stdpp Require Import base option strings list gmap.

Local Open Scope Z_scope.
Local Open Scope string_scope.

(** ** Errors (package trace) *)

(** The error classes the server creates or tests for.  [BadParameterError]
    keeps the format string and its arguments apart, so that no formatting
    verb has to be rendered. *)
#[warnings="-register-all"]
Inductive error : Type :=
| BadParameterError (format : string) (args : list string)
| NotFoundError (message : string)
| AccessDeniedError (message : string)
| ConnectionProblemError (message : string)
| TraceErr (inner : error)
| AggregateError (errs : list error).

(** [trace.Wrap(err)] for a non-nil [err]. *)
Definition Wrap (err : error) : error := TraceErr err.

(** [trace.Unwrap]: strips the wrappers added by [trace.Wrap]. *)
Fixpoint Unwrap (err : error) : error :=
  match err with
  | TraceErr inner => Unwrap inner
  | _ => err
  end.

Definition IsNotFound (err : error) : bool :=
  match Unwrap err with
  | NotFoundError _ => true
  | _ => false
  end.

Definition IsBadParameter (err : error) : bool :=
  match Unwrap err with
  | BadParameterError _ _ => true
  | _ => false
  end.

Definition IsAccessDenied (err : error) : bool :=
  match Unwrap err with
  | AccessDeniedError _ => true
  | _ => false
  end.

(** [trace.NewAggregate(errs...)]: nil entries are dropped; the result is nil
    when nothing is left, otherwise one error holding every remaining one. *)
Definition NewAggregate (errs : list (option error)) : option error :=
  match omap id errs with
  | [] => None
  | nonNils => Some (TraceErr (AggregateError nonNils))
  end.

(** The errors an aggregate exposes through [Errors()]. *)
Definition Errors (err : option error) : list error :=
  match err with
  | Some (TraceErr (AggregateError errs)) => errs
  | Some e => [e]
  | None => []
  end.

Inductive result (A : Type) : Type :=
| Ok (a : A)
| Err (e : error).
Arguments Ok {A} a.
Arguments Err {A} e.

(** ** Contexts, identities, descriptors *)

(** tlsca.RouteToDatabase and tlsca.Identity, the fields the server reads. *)
Record RouteToDatabase := {
  ServiceName : string;
  RouteProtocol : string;
  RouteUsername : string;
  RouteDatabase : string;
}.

Record Identity := {
  Username : string;
  Route : RouteToDatabase;
  Expires : Z;
}.

(** The dynamic types [ctx.Value(auth.ContextUser)] can have. *)
Inductive ContextValue : Type :=
| LocalUser (identity : Identity)
| RemoteUser (identity : Identity)
| BuiltinRole (role : string)
| RemoteBuiltinRole (role : string)
| ClientAddr (addr : string).

(** What the verb [%T] prints for a context value; nil prints as <nil>. *)
Definition typeName (v : option ContextValue) : string :=
  match v with
  | None => "<nil>"
  | Some (LocalUser _) => "auth.LocalUser"
  | Some (RemoteUser _) => "auth.RemoteUser"
  | Some (BuiltinRole _) => "auth.BuiltinRole"
  | Some (RemoteBuiltinRole _) => "auth.RemoteBuiltinRole"
  | Some (ClientAddr _) => "*net.TCPAddr"
  end.

Inductive ContextKey : Type := ContextUser | ContextClientAddr.

Global Instance ContextKey_eq_dec : EqDecision ContextKey.
Proof. solve_decision. Defined.

(** context.Context: the background context, a cancellable child, a child
    carrying a value. *)
Inductive context : Type :=
| Background
| WithCancel (parent : context)
| WithValue (parent : context) (key : ContextKey) (val : ContextValue).

(** [ctx.Value(key)]: the innermost binding of [key], nil when there is
    none. *)
Fixpoint Value (ctx : context) (key : ContextKey) : option ContextValue :=
  match ctx with
  | Background => None
  | WithCancel parent => Value parent key
  | WithValue parent k v => if decide (k = key) then Some v else Value parent key
  end.

(** services.Rotation and a dynamic label (services.CommandLabel). *)
Record Rotation := {
  RotationState : string;
  RotationPhase : string;
}.

Record CommandLabel := {
  Period : Z;
  Command : list string;
  Result : string;
}.

(** services.DatabaseServer, seen through the getters and setters the
    server calls. *)
Record DatabaseServer := {
  Name : string;
  DatabaseName : string;
  Protocol : string;
  URI : string;
  DynamicLabels : gmap string CommandLabel;
  ServerRotation : Rotation;
  ServerExpires : option Z;
}.

Definition SetDynamicLabels (server : DatabaseServer)
    (dl : gmap string CommandLabel) : DatabaseServer :=
  {| Name := Name server; DatabaseName := DatabaseName server;
     Protocol := Protocol server; URI := URI server;
     DynamicLabels := dl;
     ServerRotation := ServerRotation server;
     ServerExpires := ServerExpires server |}.

Definition SetRotation (server : DatabaseServer) (r : Rotation) : DatabaseServer :=
  {| Name := Name server; DatabaseName := DatabaseName server;
     Protocol := Protocol server; URI := URI server;
     DynamicLabels := DynamicLabels server;
     ServerRotation := r;
     ServerExpires := ServerExpires server |}.

(** clockwork.Clock: the reading [Now()] gives. *)
Record ClockT := { Now : Z }.

(** [SetTTL(clock, ttl)]: the expiry becomes [clock.Now() + ttl]. *)
Definition SetTTL (server : DatabaseServer) (clock : ClockT) (ttl : Z) : DatabaseServer :=
  {| Name := Name server; DatabaseName := DatabaseName server;
     Protocol := Protocol server; URI := URI server;
     DynamicLabels := DynamicLabels server;
     ServerRotation := ServerRotation server;
     ServerExpires := Some (Now clock + ttl) |}.

(** ** Collaborators held by reference *)

(** An opaque collaborator (auth client, access point, stream emitter,
    credential provider, heartbeat callback): only its presence matters. *)
Record Handle := { handle : string }.

Inductive ClientAuthType : Type :=
| NoClientCert
| RequestClientCert
| RequireAnyClientCert
| VerifyClientCertIfGiven
| RequireAndVerifyClientCert.

(** tls.Config: the two fields [New] writes.  [GetConfigForClient] is set to
    the closure [getConfigForClient(...)], recorded by the access point it
    captures. *)
Record TLSConfigT := {
  ClientAuth : ClientAuthType;
  GetConfigForClient : option Handle;
}.

(** Modelled from the spec: services.AccessChecker (the role set and its
    database matchers belong to package services, which is not among the
    sources embedded here).  The spec describes it by the two allow-lists
    the engine tests a requested (database name, database user) pair
    against. *)
Record AccessChecker := {
  allowDbNames : list string;
  allowDbUsers : list string;
}.

(** auth.Context as returned by the authorizer: the checker and the identity
    [authContext.Identity.GetIdentity()] yields. *)
Record AuthContext := {
  AuthChecker : AccessChecker;
  AuthIdentity : Identity;
}.

(** auth.Authorizer: [Authorize(ctx)]. *)
Definition AuthorizerT : Type := context -> result AuthContext.

(** auth.Middleware, as built by [New]. *)
Record Middleware := {
  MiddlewareAccessPoint : option Handle;
  AcceptedUsage : list string;
}.

(** net.Conn: a connection is known by its remote address. *)
Record Conn := { RemoteAddr : string }.

(** events.StreamWriter *)
Record StreamWriter := { stream : string }.

(** logrus entry: the fields attached to it. *)
Definition Logger : Type := list (string * string).

(** labels.Dynamic: the label map [Get()] returns at present. *)
Record Dynamic := { Get : gmap string CommandLabel }.

(** ** Configuration *)

Record Config := {
  Clock : option ClockT;
  DataDir : string;
  AuthClient : option Handle;
  AccessPoint : option Handle;
  StreamEmitter : option Handle;
  TLSConfig : option TLSConfigT;
  CipherSuites : list Z;
  Authorizer : option AuthorizerT;
  GetRotation : option (string -> option Rotation * option error);
  Servers : list DatabaseServer;
  Credentials : option Handle;
  OnHeartbeat : option Handle;
}.

Definition setClock (c : Config) (v : option ClockT) : Config :=
  {| Clock := v; DataDir := DataDir c; AuthClient := AuthClient c;
     AccessPoint := AccessPoint c; StreamEmitter := StreamEmitter c;
     TLSConfig := TLSConfig c; CipherSuites := CipherSuites c;
     Authorizer := Authorizer c; GetRotation := GetRotation c;
     Servers := Servers c; Credentials := Credentials c;
     OnHeartbeat := OnHeartbeat c |}.

Definition setCredentials (c : Config) (v : option Handle) : Config :=
  {| Clock := Clock c; DataDir := DataDir c; AuthClient := AuthClient c;
     AccessPoint := AccessPoint c; StreamEmitter := StreamEmitter c;
     TLSConfig := TLSConfig c; CipherSuites := CipherSuites c;
     Authorizer := Authorizer c; GetRotation := GetRotation c;
     Servers := Servers c; Credentials := v;
     OnHeartbeat := OnHeartbeat c |}.

Definition setTLSConfig (c : Config) (v : option TLSConfigT) : Config :=
  {| Clock := Clock c; DataDir := DataDir c; AuthClient := AuthClient c;
     AccessPoint := AccessPoint c; StreamEmitter := StreamEmitter c;
     TLSConfig := v; CipherSuites := CipherSuites c;
     Authorizer := Authorizer c; GetRotation := GetRotation c;
     Servers := Servers c; Credentials := Credentials c;
     OnHeartbeat := OnHeartbeat c |}.

(** srv.HeartbeatConfig as filled in by [initHeartbeat].  [GetServerInfo] is
    the closure [s.getServerInfoFunc(server)], recorded by the descriptor it
    captures. *)
Record HeartbeatConfig := {
  HbContext : context;
  Component : string;
  Mode : string;
  Announcer : option Handle;
  GetServerInfo : DatabaseServer;
  KeepAlivePeriod : Z;
  AnnouncePeriod : Z;
  CheckPeriod : Z;
  ServerTTL : Z;
  HbOnHeartbeat : option Handle;
}.

(** srv.Heartbeat *)
Record Heartbeat := { HeartbeatCfg : HeartbeatConfig }.

(** ** The server, sessions and engines *)

Record Server := {
  config : Config;
  closeContext : context;
  middleware : Middleware;
  dynamicLabels : gmap string Dynamic;
  heartbeats : gmap string Heartbeat;
  rdsCACerts : gmap string (list Z);
  Entry : Logger;
}.

Module session.
(** session.Context.  [Server] is an interface value and may be nil. *)
Record Context := {
  ID : string;
  Server : option DatabaseServer;
  Identity : Identity;
  Checker : AccessChecker;
  Log : Logger;
}.
End session.

(** The three audit closures handed to an engine, each bound to the stream
    writer it emits to. *)
Inductive AuditClosure : Type :=
| emitSessionStartEventFn (streamWriter : StreamWriter)
| emitSessionEndEventFn (streamWriter : StreamWriter)
| emitQueryEventFn (streamWriter : StreamWriter).

Module postgres.
Record Engine := {
  AuthClient : option Handle;
  Credentials : option Handle;
  RDSCACerts : gmap string (list Z);
  OnSessionStart : AuditClosure;
  OnSessionEnd : AuditClosure;
  OnQuery : AuditClosure;
  Clock : option ClockT;
  Log : Logger;
}.
End postgres.

(** DatabaseEngine: the implementations of the interface. *)
Inductive DatabaseEngine : Type :=
| PostgresEngine (e : postgres.Engine).

(** Which of its closures an engine invoked, in order. *)
Inductive AuditKind : Type := SessionStartK | SessionEndK | QueryK.

Definition closureOf (engine : DatabaseEngine) (k : AuditKind) : AuditClosure :=
  match engine, k with
  | PostgresEngine e, SessionStartK => postgres.OnSessionStart e
  | PostgresEngine e, SessionEndK => postgres.OnSessionEnd e
  | PostgresEngine e, QueryK => postgres.OnQuery e
  end.

(** ** Calls, panics and the monad of traced computations *)

Inductive Level : Type := DebugLevel | WarnLevel | ErrorLevel.

(** The function literals started with [go]. *)
Inductive goroutine : Type :=
| GoDynamicLabelStart (name : string)
| GoHeartbeatRun (name : string)
| GoStreamWriterClose (streamWriter : StreamWriter) (ctx : context) (log : Logger).

(** The calls to collaborators a server function makes. *)
Inductive event : Type :=
| EvLog (level : Level) (message : string)
| EvNewDynamic (name : string)
| EvSync (name : string)
| EvNewHeartbeat (name : string)
| EvInitRDSRootCert (name : string)
| EvGo (g : goroutine)
| EvDynamicLabelClose (name : string)
| EvCancel (ctx : context)
| EvHeartbeatClose (name : string)
| EvHandshake (conn : Conn)
| EvWrapContext (conn : Conn)
| EvConnClose (conn : Conn)
| EvAuthorize (ctx : context)
| EvSessionContext (id : string)
| EvNewStreamWriter (id : string)
| EvEngineHandleConnection (ctx : context) (conn : Conn)
| EvAudit (closure : AuditClosure)
| EvStreamWriterClose (streamWriter : StreamWriter) (ctx : context).

Inductive panic : Type :=
| NilDereference (what : string)
| EnginePanic (message : string).

Inductive outcome (A : Type) : Type :=
| Returns (a : A)
| Panics (p : panic).
Arguments Returns {A} a.
Arguments Panics {A} p.

Definition M (A : Type) : Type := outcome A * list event.

Global Instance M_ret : MRet M := fun A a => (Returns a, []).

Global Instance M_bind : MBind M := fun A B k m =>
  match m with
  | (Returns a, t) => let '(r, t') := k a in (r, (t ++ t')%list)
  | (Panics p, t) => (Panics p, t)
  end.

Definition call (e : event) : M unit := (Returns tt, [e]).

Definition raise {A : Type} (p : panic) : M A := (Panics p, []).

(** [defer d; body]: the deferred call runs when the body returns and when
    it panics; a panic of the body is kept unless the deferred call itself
    panics. *)
Definition defer {A : Type} (d : M unit) (body : M A) : M A :=
  let '(r, t) := body in
  let '(rd, td) := d in
  (match rd with Panics p => Panics p | Returns _ => r end, (t ++ td)%list).

(** A [for ... range] loop whose body only makes calls. *)
Fixpoint forEach {A : Type} (body : A -> M unit) (l : list A) : M unit :=
  match l with
  | [] => mret tt
  | x :: rest => body x ;; forEach body rest
  end.

Definition trace_of {A : Type} (m : M A) : list event := snd m.
Definition outcome_of {A : Type} (m : M A) : outcome A := fst m.

(** ** The environment: collaborators outside this package *)

Record World := {
  (* constants of packages teleport, srv and trace *)
  RoleDatabase : string;
  ComponentDB : string;
  HeartbeatModeDB : string;
  UsageDatabaseOnly : string;
  traceComponent : string;
  (* clockwork.NewRealClock() *)
  NewRealClock : ClockT;
  (* awssession.NewSessionWithOptions(...): the credentials of the session *)
  NewSessionWithOptions : result Handle;
  (* package defaults *)
  ServerAnnounceTTL : Z;
  ServerKeepAliveTTL : Z;
  HeartbeatCheckPeriod : Z;
  (* utils.RandomDuration *)
  RandomDuration : Z -> Z;
  (* labels.NewDynamic and Dynamic.Sync *)
  NewDynamic : context -> gmap string CommandLabel -> result Dynamic;
  Sync : Dynamic -> Dynamic;
  (* srv.NewHeartbeat and Heartbeat.Close *)
  NewHeartbeat : HeartbeatConfig -> result Heartbeat;
  HeartbeatClose : Heartbeat -> option error;
  (* Server.initRDSRootCert, defined in another file of the package: the
     certificate cache it leaves behind, or its error *)
  initRDSRootCert : gmap string (list Z) -> DatabaseServer ->
                    result (gmap string (list Z));
  (* tls.Conn.Handshake *)
  Handshake : option TLSConfigT -> Conn -> option error;
  (* auth.Middleware.WrapContext *)
  WrapContext : Middleware -> context -> Conn -> result context;
  (* uuid.New() *)
  uuidNew : string;
  (* Server.newStreamWriter, defined in another file of the package *)
  newStreamWriter : session.Context -> result StreamWriter;
  (* events.StreamWriter.Close *)
  StreamWriterClose : StreamWriter -> context -> option error;
  (* DatabaseEngine.HandleConnection: how the run ends and which of the
     engine's audit closures it invoked *)
  EngineHandleConnection :
    DatabaseEngine -> context -> session.Context -> Conn ->
    outcome (option error) * list AuditKind;
  (* the order in which a [range] over a map visits it *)
  rangeMap : forall A : Type, gmap string A -> list (string * A);
}.

(** Modelled from the spec: the constant defaults.ProtocolPostgres (package
    defaults is not among the sources embedded here); the one protocol an
    engine is registered for. *)
Definition ProtocolPostgres : string := "postgres".

(** ** Configuration validation *)

(** [v == nil] *)
Definition isNil {A : Type} (v : option A) : bool :=
  match v with
  | None => true
  | Some _ => false
  end.

(** [c.CheckAndSetDefaults()]: the configuration as the call leaves it and
    the error returned. *)
Definition CheckAndSetDefaults (W : World) (c : Config) : Config * option error :=
  let c := match Clock c with
           | None => setClock c (Some (NewRealClock W))
           | Some _ => c
           end in
  if String.eqb (DataDir c) "" then
    (c, Some (BadParameterError "data dir missing" []))
  else if isNil (AuthClient c) then
    (c, Some (BadParameterError "auth client log missing" []))
  else if isNil (AccessPoint c) then
    (c, Some (BadParameterError "access point missing" []))
  else if isNil (StreamEmitter c) then
    (c, Some (BadParameterError "stream emitter missing" []))
  else if isNil (TLSConfig c) then
    (c, Some (BadParameterError "tls config missing" []))
  else if (Z.of_nat (length (CipherSuites c)) =? 0)%Z then
    (c, Some (BadParameterError "cipersuites missing" []))
  else if isNil (Authorizer c) then
    (c, Some (BadParameterError "authorizer missing" []))
  else if isNil (GetRotation c) then
    (c, Some (BadParameterError "rotation getter missing" []))
  else if (Z.of_nat (length (Servers c)) =? 0)%Z then
    (c, Some (BadParameterError "database servers missing" []))
  else if isNil (OnHeartbeat c) then
    (c, Some (BadParameterError "heartbeat missing" []))
  else
    match Credentials c with
    | None =>
        match NewSessionWithOptions W with
        | Err err => (c, Some (Wrap err))
        | Ok credentials => (setCredentials c (Some credentials), None)
        end
    | Some _ => (c, None)
    end.

(** ** Construction *)

Definition setDynamicTable (s : Server) (v : gmap string Dynamic) : Server :=
  {| config := config s; closeContext := closeContext s;
     middleware := middleware s; dynamicLabels := v;
     heartbeats := heartbeats s; rdsCACerts := rdsCACerts s;
     Entry := Entry s |}.

Definition setHeartbeatTable (s : Server) (v : gmap string Heartbeat) : Server :=
  {| config := config s; closeContext := closeContext s;
     middleware := middleware s; dynamicLabels := dynamicLabels s;
     heartbeats := v; rdsCACerts := rdsCACerts s;
     Entry := Entry s |}.

Definition setCertCache (s : Server) (v : gmap string (list Z)) : Server :=
  {| config := config s; closeContext := closeContext s;
     middleware := middleware s; dynamicLabels := dynamicLabels s;
     heartbeats := heartbeats s; rdsCACerts := v;
     Entry := Entry s |}.

Definition setConfig (s : Server) (v : Config) : Server :=
  {| config := v; closeContext := closeContext s;
     middleware := middleware s; dynamicLabels := dynamicLabels s;
     heartbeats := heartbeats s; rdsCACerts := rdsCACerts s;
     Entry := Entry s |}.

(** The [init...] methods write to the server's tables; each returns the
    server as it leaves it together with its error. *)
Definition initDynamicLabels (W : World) (s : Server) (ctx : context)
    (server : DatabaseServer) : M (Server * option error) :=
  if (size (DynamicLabels server) =? 0)%nat then mret (s, None)
  else
    call (EvNewDynamic (Name server));;
    match NewDynamic W ctx (DynamicLabels server) with
    | Err err => mret (s, Some (Wrap err))
    | Ok dynamic =>
        call (EvSync (Name server));;
        mret (setDynamicTable s
                (<[Name server := Sync W dynamic]> (dynamicLabels s)), None)
    end.

Definition initHeartbeat (W : World) (s : Server) (ctx : context)
    (server : DatabaseServer) : M (Server * option error) :=
  call (EvNewHeartbeat (Name server));;
  match NewHeartbeat W
          {| HbContext := closeContext s;
             Component := ComponentDB W;
             Mode := HeartbeatModeDB W;
             Announcer := AccessPoint (config s);
             GetServerInfo := server;
             KeepAlivePeriod := ServerKeepAliveTTL W;
             AnnouncePeriod :=
               Z.quot (ServerAnnounceTTL W) 2
               + RandomDuration W (Z.quot (ServerAnnounceTTL W) 10);
             CheckPeriod := HeartbeatCheckPeriod W;
             ServerTTL := ServerAnnounceTTL W;
             HbOnHeartbeat := OnHeartbeat (config s) |} with
  | Err err => mret (s, Some (Wrap err))
  | Ok heartbeat =>
      mret (setHeartbeatTable s (<[Name server := heartbeat]> (heartbeats s)),
            None)
  end.

Definition initRDSRootCertOf (W : World) (s : Server) (ctx : context)
    (server : DatabaseServer) : M (Server * option error) :=
  call (EvInitRDSRootCert (Name server));;
  match initRDSRootCert W (rdsCACerts s) server with
  | Err err => mret (s, Some err)
  | Ok certs => mret (setCertCache s certs, None)
  end.

Definition initDatabaseServer (W : World) (s : Server) (ctx : context)
    (server : DatabaseServer) : M (Server * option error) :=
  '(s, err) ← initDynamicLabels W s ctx server;
  match err with
  | Some err => mret (s, Some (Wrap err))
  | None =>
      '(s, err) ← initHeartbeat W s ctx server;
      match err with
      | Some err => mret (s, Some (Wrap err))
      | None =>
          '(s, err) ← initRDSRootCertOf W s ctx server;
          match err with
          | Some err => mret (s, Some (Wrap err))
          | None => mret (s, None)
          end
      end
  end.

(** The loop of [New] over [server.Servers], left at the first error. *)
Fixpoint initDatabaseServers (W : World) (s : Server) (ctx : context)
    (servers : list DatabaseServer) : M (Server * option error) :=
  match servers with
  | [] => mret (s, None)
  | db :: rest =>
      '(s, err) ← initDatabaseServer W s ctx db;
      match err with
      | Some err => mret (s, Some (Wrap err))
      | None => initDatabaseServers W s ctx rest
      end
  end.

Definition New (W : World) (ctx : context) (cfg : Config) : M (result Server) :=
  let '(cfg, err) := CheckAndSetDefaults W cfg in
  match err with
  | Some err => mret (Err (Wrap err))
  | None =>
      let localCtx := WithCancel ctx in
      let server :=
        {| config := cfg;
           Entry := [(traceComponent W, ComponentDB W)];
           closeContext := localCtx;
           dynamicLabels := ∅;
           heartbeats := ∅;
           rdsCACerts := ∅;
           middleware := {| MiddlewareAccessPoint := AccessPoint cfg;
                            AcceptedUsage := [UsageDatabaseOnly W] |} |} in
      match TLSConfig cfg with
      | None => raise (NilDereference "server.TLSConfig")
      | Some _ =>
          let server :=
            setConfig server
              (setTLSConfig cfg
                 (Some {| ClientAuth := RequireAndVerifyClientCert;
                          GetConfigForClient := AccessPoint cfg |})) in
          '(server, err) ← initDatabaseServers W server localCtx (Servers cfg);
          match err with
          | Some err => mret (Err err)
          | None => mret (Ok server)
          end
      end
  end.

(** ** The heartbeat info-provider *)

(** The closure [s.getServerInfoFunc(server)], applied: the descriptor as
    the call leaves it (it is also the resource returned) and the error. *)
Definition getServerInfoFunc (W : World) (s : Server) (server : DatabaseServer)
    : M (DatabaseServer * option error) :=
  let server :=
    match dynamicLabels s !! Name server with
    | Some labels => SetDynamicLabels server (Get labels)
    | None => server
    end in
  match GetRotation (config s) with
  | None => raise (NilDereference "s.GetRotation")
  | Some getRotation =>
      let '(rotation, err) := getRotation (RoleDatabase W) in
      server ←
        (if match err with
            | Some e => negb (IsNotFound e)
            | None => false
            end
         then call (EvLog WarnLevel "Failed to get rotation state.");;
              mret server
         else match rotation with
              | None => raise (NilDereference "rotation")
              | Some r => mret (SetRotation server r)
              end);
      match Clock (config s) with
      | None => raise (NilDereference "s.Clock")
      | Some clock => mret (SetTTL server clock (ServerAnnounceTTL W), None)
      end
  end.

(** ** Lifecycle *)

Definition Start (W : World) (s : Server) : M (option error) :=
  forEach (fun '(name, _) => call (EvGo (GoDynamicLabelStart name)))
          (rangeMap W _ (dynamicLabels s));;
  forEach (fun '(name, _) => call (EvGo (GoHeartbeatRun name)))
          (rangeMap W _ (heartbeats s));;
  mret None.

(** The second loop of [Close]: [errors = append(errors, heartbeat.Close())]. *)
Fixpoint closeHeartbeats (W : World) (l : list (string * Heartbeat))
    (errors : list (option error)) : M (list (option error)) :=
  match l with
  | [] => mret errors
  | (name, heartbeat) :: rest =>
      call (EvHeartbeatClose name);;
      closeHeartbeats W rest (errors ++ [HeartbeatClose W heartbeat])%list
  end.

Definition Close (W : World) (s : Server) : M (option error) :=
  forEach (fun '(name, _) => call (EvDynamicLabelClose name))
          (rangeMap W _ (dynamicLabels s));;
  call (EvCancel (closeContext s));;
  errors ← closeHeartbeats W (rangeMap W _ (heartbeats s)) [];
  mret (NewAggregate errors).

(** ** The connection path *)

(** The lookup loop of [authorize]: the last configured descriptor whose
    database name equals the requested service name, nil when there is
    none. *)
Definition findServer (servers : list DatabaseServer) (serviceName : string)
    : option DatabaseServer :=
  fold_left
    (fun server s =>
       if String.eqb (DatabaseName s) serviceName then Some s else server)
    servers None.

Definition authorize (W : World) (s : Server) (ctx : context)
    : M (result session.Context) :=
  let userType := Value ctx ContextUser in
  match userType with
  | Some (LocalUser _) | Some (RemoteUser _) =>
      match Authorizer (config s) with
      | None => raise (NilDereference "s.Authorizer")
      | Some authorizer =>
          call (EvAuthorize ctx);;
          match authorizer ctx with
          | Err err => mret (Err (Wrap err))
          | Ok authContext =>
              let identity := AuthIdentity authContext in
              call (EvLog DebugLevel "Client identity: %#v.");;
              let server := findServer (Servers (config s))
                                       (ServiceName (Route identity)) in
              match server with
              | None => raise (NilDereference "server")
              | Some found =>
                  call (EvLog DebugLevel "Will connect to database %q at %v.");;
                  let id := uuidNew W in
                  call (EvSessionContext id);;
                  mret (Ok {| session.ID := id;
                              session.Server := server;
                              session.Identity := identity;
                              session.Checker := AuthChecker authContext;
                              session.Log :=
                                (Entry s ++ [("id", id);
                                             ("db", DatabaseName found)])%list |})
              end
          end
      end
  | _ => mret (Err (BadParameterError "invalid identity: %T" [typeName userType]))
  end.

Definition dispatch (s : Server) (sessionCtx : session.Context)
    (streamWriter : StreamWriter) : M (result DatabaseEngine) :=
  match session.Server sessionCtx with
  | None => raise (NilDereference "sessionCtx.Server")
  | Some server =>
      if String.eqb (Protocol server) ProtocolPostgres then
        mret (Ok (PostgresEngine
                    {| postgres.AuthClient := AuthClient (config s);
                       postgres.Credentials := Credentials (config s);
                       postgres.RDSCACerts := rdsCACerts s;
                       postgres.OnSessionStart := emitSessionStartEventFn streamWriter;
                       postgres.OnSessionEnd := emitSessionEndEventFn streamWriter;
                       postgres.OnQuery := emitQueryEventFn streamWriter;
                       postgres.Clock := Clock (config s);
                       postgres.Log := session.Log sessionCtx |}))
      else
        mret (Err (BadParameterError "unsupported database procotol %q"
                                     [Protocol server]))
  end.

(** [engine.HandleConnection(ctx, sessionCtx, conn)]: the call, the audit
    closures the engine invoked, and how the run ended. *)
Definition runEngine (W : World) (engine : DatabaseEngine) (ctx : context)
    (sessionCtx : session.Context) (conn : Conn) : M (option error) :=
  let '(out, audits) := EngineHandleConnection W engine ctx sessionCtx conn in
  (out, EvEngineHandleConnection ctx conn
        :: map (fun k => EvAudit (closureOf engine k)) audits).

Definition handleConnection (W : World) (s : Server) (ctx : context)
    (conn : Conn) : M (option error) :=
  r ← authorize W s ctx;
  match r with
  | Err err => mret (Some (Wrap err))
  | Ok sessionCtx =>
      call (EvNewStreamWriter (session.ID sessionCtx));;
      match newStreamWriter W sessionCtx with
      | Err err => mret (Some (Wrap err))
      | Ok streamWriter =>
          defer (call (EvGo (GoStreamWriterClose streamWriter (closeContext s)
                                                 (session.Log sessionCtx))))
            (r ← dispatch s sessionCtx streamWriter;
             match r with
             | Err err => mret (Some (Wrap err))
             | Ok engine =>
                 err ← runEngine W engine ctx sessionCtx conn;
                 match err with
                 | Some err => mret (Some (Wrap err))
                 | None => mret None
                 end
             end)
      end
  end.

Definition HandleConnection (W : World) (s : Server) (conn : Conn) : M unit :=
  call (EvLog DebugLevel "Accepted connection.");;
  defer (call (EvConnClose conn))
    (call (EvHandshake conn);;
     match Handshake W (TLSConfig (config s)) conn with
     | Some err => call (EvLog ErrorLevel "Failed to perform TLS handshake.")
     | None =>
         call (EvWrapContext conn);;
         match WrapContext W (middleware s) Background conn with
         | Err err =>
             call (EvLog ErrorLevel "Failed to extract identity from connection.")
         | Ok ctx =>
             err ← handleConnection W s ctx conn;
             match err with
             | Some err => call (EvLog ErrorLevel "Failed to handle connection.")
             | None => mret tt
             end
         end
     end).

(** The body of a started function literal.  The stream-writer closer calls
    [streamWriter.Close(ctx)] once and logs a failure; the two worker loops
    belong to other packages. *)
Definition goBody (W : World) (g : goroutine) : list event :=
  match g with
  | GoStreamWriterClose streamWriter ctx _ =>
      EvStreamWriterClose streamWriter ctx
      :: match StreamWriterClose W streamWriter ctx with
         | Some err => [EvLog WarnLevel "Failed to close stream writer."]
         | None => []
         end
  | GoDynamicLabelStart _ => []
  | GoHeartbeatRun _ => []
  end.

(** The goroutines a trace started, in order. *)
Fixpoint started (t : list event) : list goroutine :=
  match t with
  | [] => []
  | EvGo g :: rest => g :: started rest
  | _ :: rest => started rest
  end.

(** Every call made on behalf of a trace: its own calls and those of the
    goroutines it started. *)
Definition allCalls (W : World) (t : list event) : list event :=
  (t ++ concat (map (goBody W) (started t)))%list.

(** The contexts [streamWriter.Close] was called with. *)
Fixpoint closesOf (streamWriter : StreamWriter) (t : list event) : list context :=
  match t with
  | [] => []
  | EvStreamWriterClose w ctx :: rest =>
      if String.eqb (stream w) (stream streamWriter)
      then ctx :: closesOf streamWriter rest
      else closesOf streamWriter rest
  | _ :: rest => closesOf streamWriter rest
  end.

(** ** The engine's access check *)

Module access.

(** Modelled from the spec: the constant services.Wildcard (package
    services is not among the sources embedded here). *)
Definition Wildcard : string := "*".

(** Modelled from the spec: the allow-list test of the role set (its
    database matchers are not among the sources embedded here).  A
    requested value passes an allow-list when some entry of the list is the
    wildcard or is the value itself. *)
Definition matchesAllowList (allow : list string) (requested : string) : bool :=
  existsb (fun entry => String.eqb entry Wildcard || String.eqb entry requested)
          allow.

(** Modelled from the spec: the access check of the protocol engine (the
    postgres engine is not among the sources embedded here): the requested
    pair is tested against both allow-lists. *)
Definition checkAccess (checker : AccessChecker) (dbName dbUser : string)
    : option error :=
  if matchesAllowList (allowDbNames checker) dbName
     && matchesAllowList (allowDbUsers checker) dbUser
  then None
  else Some (AccessDeniedError "access to database denied").

(** What an engine run does with the backend. *)
Inductive backendCall : Type :=
| Connect (dbName dbUser : string)
| Exec (sql : string).

(** Modelled from the spec: a run of the protocol engine (not among the
    sources embedded here): the pair is tested before any query is
    permitted; once granted, the engine connects and executes the client's
    queries. *)
Definition run (checker : AccessChecker) (dbName dbUser : string)
    (queries : list string) : option error * list backendCall :=
  match checkAccess checker dbName dbUser with
  | Some err => (Some err, [])
  | None => (None, Connect dbName dbUser :: map Exec queries)
  end.

(** The table of TestDatabaseAccess; [err] is empty when the connection
    is expected to succeed. *)
Record testCase := {
  desc : string;
  allowNames : list string;
  allowUsers : list string;
  dbName : string;
  dbUser : string;
  err : string;
}.

Definition tests : list testCase :=
  [ {| desc := "has access to all database names and users";
       allowNames := [Wildcard]; allowUsers := [Wildcard];
       dbName := "postgres"; dbUser := "postgres"; err := "" |};
    {| desc := "has access to nothing";
       allowNames := []; allowUsers := [];
       dbName := "postgres"; dbUser := "postgres";
       err := "access to database denied" |};
    {| desc := "no access to databases";
       allowNames := []; allowUsers := [Wildcard];
       dbName := "postgres"; dbUser := "postgres";
       err := "access to database denied" |};
    {| desc := "no access to users";
       allowNames := [Wildcard]; allowUsers := [];
       dbName := "postgres"; dbUser := "postgres";
       err := "access to database denied" |};
    {| desc := "access allowed to specific user/database";
       allowNames := ["metrics"]; allowUsers := ["alice"];
       dbName := "metrics"; dbUser := "alice"; err := "" |};
    {| desc := "access denied to specific user/database";
       allowNames := ["metrics"]; allowUsers := ["alice"];
       dbName := "postgres"; dbUser := "postgres";
       err := "access to database denied" |} ].

(** Whether the check gives what a row of the table expects. *)
Definition passes (t : testCase) : bool :=
  match checkAccess {| allowDbNames := allowNames t;
                       allowDbUsers := allowUsers t |}
                    (dbName t) (dbUser t) with
  | None => String.eqb (err t) ""
  | Some (AccessDeniedError message) => String.eqb (err t) message
  | Some _ => false
  end.

End access.

(** ** The session record of session.go *)

Module sessiongo.

(** sessionContext; [db] is an interface value and may be nil. *)
Record sessionContext := {
  id : string;
  db : option DatabaseServer;
  identity : Identity;
  checker : AccessChecker;
  dbUser : string;
  dbName : string;
  log : Logger;
}.

(** [c.String()]: the four values are printed with the verb [%v], which
    prints a string as it is. *)
Definition String (c : sessionContext) : outcome string :=
  match db c with
  | None => Panics (NilDereference "c.db")
  | Some d =>
      Returns ("db[" ++ DatabaseName d
               ++ "] identity[" ++ Username (identity c)
               ++ "] dbUser[" ++ dbUser c
               ++ "] dbName[" ++ dbName c ++ "]")
  end.

End sessiongo.

(** ** Concrete environments, configurations and servers *)

Module examples.

Definition alice : Identity :=
  {| Username := "alice";
     Route := {| ServiceName := "test"; RouteProtocol := "postgres";
                 RouteUsername := "postgres"; RouteDatabase := "postgres" |};
     Expires := 3600 |}.

(** An identity asking for a service no descriptor is configured for. *)
Definition bob : Identity :=
  {| Username := "bob";
     Route := {| ServiceName := "missing"; RouteProtocol := "postgres";
                 RouteUsername := "postgres"; RouteDatabase := "postgres" |};
     Expires := 3600 |}.

Definition everything : AccessChecker :=
  {| allowDbNames := [access.Wildcard]; allowDbUsers := [access.Wildcard] |}.

(** The authorizer answers with the identity found in the context. *)
Definition authorizer : AuthorizerT := fun ctx =>
  match Value ctx ContextUser with
  | Some (LocalUser identity) | Some (RemoteUser identity) =>
      Ok {| AuthChecker := everything; AuthIdentity := identity |}
  | _ => Err (AccessDeniedError "access denied")
  end.

Definition world : World :=
  {| RoleDatabase := "Db";
     ComponentDB := "db:service";
     HeartbeatModeDB := "db";
     UsageDatabaseOnly := "usage:db";
     traceComponent := "trace.component";
     NewRealClock := {| Now := 0 |};
     NewSessionWithOptions := Ok {| handle := "aws" |};
     ServerAnnounceTTL := 600;
     ServerKeepAliveTTL := 60;
     HeartbeatCheckPeriod := 5;
     RandomDuration := fun d => Z.quot d 2;
     NewDynamic := fun _ l => Ok {| Get := l |};
     Sync := fun d => d;
     NewHeartbeat := fun c => Ok {| HeartbeatCfg := c |};
     HeartbeatClose := fun _ => None;
     initRDSRootCert := fun certs _ => Ok certs;
     Handshake := fun _ _ => None;
     WrapContext := fun _ ctx _ => Ok (WithValue ctx ContextUser (LocalUser alice));
     uuidNew := "6ba7b810-9dad-11d1-80b4-00c04fd430c8";
     newStreamWriter := fun sc => Ok {| stream := session.ID sc |};
     StreamWriterClose := fun _ _ => None;
     EngineHandleConnection := fun _ _ _ _ =>
       (Returns None, [SessionStartK; QueryK; SessionEndK]);
     rangeMap := fun A m => map_to_list m |}.

(** The same environment, except that every heartbeat fails to close. *)
Definition failingWorld : World :=
  {| RoleDatabase := RoleDatabase world;
     ComponentDB := ComponentDB world;
     HeartbeatModeDB := HeartbeatModeDB world;
     UsageDatabaseOnly := UsageDatabaseOnly world;
     traceComponent := traceComponent world;
     NewRealClock := NewRealClock world;
     NewSessionWithOptions := NewSessionWithOptions world;
     ServerAnnounceTTL := ServerAnnounceTTL world;
     ServerKeepAliveTTL := ServerKeepAliveTTL world;
     HeartbeatCheckPeriod := HeartbeatCheckPeriod world;
     RandomDuration := RandomDuration world;
     NewDynamic := NewDynamic world;
     Sync := Sync world;
     NewHeartbeat := NewHeartbeat world;
     HeartbeatClose := fun h =>
       Some (ConnectionProblemError (Name (GetServerInfo (HeartbeatCfg h))));
     initRDSRootCert := initRDSRootCert world;
     Handshake := fun _ _ => Some (ConnectionProblemError "tls: bad certificate");
     WrapContext := WrapContext world;
     uuidNew := uuidNew world;
     newStreamWriter := newStreamWriter world;
     StreamWriterClose := StreamWriterClose world;
     EngineHandleConnection := fun _ _ _ _ =>
       (Returns (Some (ConnectionProblemError "connection reset")), [SessionStartK]);
     rangeMap := rangeMap world |}.

Definition uptime : CommandLabel :=
  {| Period := 60; Command := ["uptime"]; Result := "" |}.

Definition testDb : DatabaseServer :=
  {| Name := "host-1"; DatabaseName := "test"; Protocol := "postgres";
     URI := "localhost:5432"; DynamicLabels := {[ "uptime" := uptime ]};
     ServerRotation := {| RotationState := ""; RotationPhase := "" |};
     ServerExpires := None |}.

Definition mysqlDb : DatabaseServer :=
  {| Name := "host-2"; DatabaseName := "orders"; Protocol := "mysql";
     URI := "localhost:3306"; DynamicLabels := ∅;
     ServerRotation := {| RotationState := ""; RotationPhase := "" |};
     ServerExpires := None |}.

Definition standby : Rotation :=
  {| RotationState := "standby"; RotationPhase := "" |}.

(** Every field set, as in setupTestContext. *)
Definition cfg : Config :=
  {| Clock := Some {| Now := 1000 |};
     DataDir := "/var/lib/teleport";
     AuthClient := Some {| handle := "auth" |};
     AccessPoint := Some {| handle := "cache" |};
     StreamEmitter := Some {| handle := "emitter" |};
     TLSConfig := Some {| ClientAuth := NoClientCert; GetConfigForClient := None |};
     CipherSuites := [4865; 4866];
     Authorizer := Some authorizer;
     GetRotation := Some (fun _ => (Some standby, None));
     Servers := [testDb; mysqlDb];
     Credentials := Some {| handle := "static" |};
     OnHeartbeat := Some {| handle := "onHeartbeat" |} |}.

(** [cfg] with the clock left unset. *)
Definition cfgNoClock : Config := setClock cfg None.

(** [cfg] with the data directory left unset. *)
Definition cfgNoDataDir : Config :=
  {| Clock := Clock cfg; DataDir := ""; AuthClient := AuthClient cfg;
     AccessPoint := AccessPoint cfg; StreamEmitter := StreamEmitter cfg;
     TLSConfig := TLSConfig cfg; CipherSuites := CipherSuites cfg;
     Authorizer := Authorizer cfg; GetRotation := GetRotation cfg;
     Servers := Servers cfg; Credentials := Credentials cfg;
     OnHeartbeat := OnHeartbeat cfg |}.

(** [cfg] with neither clock nor credential provider. *)
Definition cfgDefaults : Config := setCredentials (setClock cfg None) None.

(** [cfg] with a rotation getter that finds no rotation state. *)
Definition cfgNoRotation : Config :=
  {| Clock := Clock cfg; DataDir := DataDir cfg; AuthClient := AuthClient cfg;
     AccessPoint := AccessPoint cfg; StreamEmitter := StreamEmitter cfg;
     TLSConfig := TLSConfig cfg; CipherSuites := CipherSuites cfg;
     Authorizer := Authorizer cfg;
     GetRotation := Some (fun _ => (None, Some (Wrap (NotFoundError "state not found"))));
     Servers := Servers cfg; Credentials := Credentials cfg;
     OnHeartbeat := OnHeartbeat cfg |}.

(** The server [New] builds from a configuration in [world]; the server
    with empty tables when construction fails. *)
Definition serverOf (c : Config) : Server :=
  match New world Background c with
  | (Returns (Ok s), _) => s
  | _ => {| config := c; closeContext := WithCancel Background;
            middleware := {| MiddlewareAccessPoint := None; AcceptedUsage := [] |};
            dynamicLabels := ∅; heartbeats := ∅; rdsCACerts := ∅; Entry := [] |}
  end.

Definition server : Server := serverOf cfg.

Definition conn : Conn := {| RemoteAddr := "127.0.0.1:54321" |}.

Definition aliceCtx : context := WithValue Background ContextUser (LocalUser alice).
Definition bobCtx : context := WithValue Background ContextUser (LocalUser bob).
Definition proxyCtx : context := WithValue Background ContextUser (BuiltinRole "Proxy").

(** The session [authorize] builds for alice, and the calls it makes. *)
Definition aliceSession : session.Context :=
  {| session.ID := uuidNew world; session.Server := Some testDb;
     session.Identity := alice; session.Checker := everything;
     session.Log := [(traceComponent world, ComponentDB world);
                     ("id", uuidNew world); ("db", "test")] |}.

Definition aliceTrace : list event :=
  [EvAuthorize aliceCtx; EvLog DebugLevel "Client identity: %#v.";
   EvLog DebugLevel "Will connect to database %q at %v.";
   EvSessionContext (uuidNew world)].

Definition mysqlSession : session.Context :=
  {| session.ID := "1"; session.Server := Some mysqlDb;
     session.Identity := alice; session.Checker := everything;
     session.Log := [] |}.

Definition pgSession : session.Context :=
  {| session.ID := "2"; session.Server := Some testDb;
     session.Identity := alice; session.Checker := everything;
     session.Log := [("id", "2"); ("db", "test")] |}.

Definition writer : StreamWriter := {| stream := "1" |}.

(** [world], except that the certificate presented on every connection
    carries the identity of bob. *)
Definition bobWorld : World :=
  {| RoleDatabase := RoleDatabase world;
     ComponentDB := ComponentDB world;
     HeartbeatModeDB := HeartbeatModeDB world;
     UsageDatabaseOnly := UsageDatabaseOnly world;
     traceComponent := traceComponent world;
     NewRealClock := NewRealClock world;
     NewSessionWithOptions := NewSessionWithOptions world;
     ServerAnnounceTTL := ServerAnnounceTTL world;
     ServerKeepAliveTTL := ServerKeepAliveTTL world;
     HeartbeatCheckPeriod := HeartbeatCheckPeriod world;
     RandomDuration := RandomDuration world;
     NewDynamic := NewDynamic world;
     Sync := Sync world;
     NewHeartbeat := NewHeartbeat world;
     HeartbeatClose := HeartbeatClose world;
     initRDSRootCert := initRDSRootCert world;
     Handshake := Handshake world;
     WrapContext := fun _ ctx _ => Ok (WithValue ctx ContextUser (LocalUser bob));
     uuidNew := uuidNew world;
     newStreamWriter := newStreamWriter world;
     StreamWriterClose := StreamWriterClose world;
     EngineHandleConnection := EngineHandleConnection world;
     rangeMap := rangeMap world |}.


(** A second descriptor that carries the database name of [testDb]. *)
Definition testDbReplica : DatabaseServer :=
  {| Name := "host-3"; DatabaseName := "test"; Protocol := "postgres";
     URI := "replica:5432"; DynamicLabels := ∅;
     ServerRotation := {| RotationState := ""; RotationPhase := "" |};
     ServerExpires := None |}.

(** An identity asking for the mysql service. *)
Definition carol : Identity :=
  {| Username := "carol";
     Route := {| ServiceName := "orders"; RouteProtocol := "mysql";
                 RouteUsername := "root"; RouteDatabase := "orders" |};
     Expires := 3600 |}.

Definition carolCtx : context := WithValue Background ContextUser (RemoteUser carol).

Definition carolSession : session.Context :=
  {| session.ID := uuidNew world; session.Server := Some mysqlDb;
     session.Identity := carol; session.Checker := everything;
     session.Log := [(traceComponent world, ComponentDB world);
                     ("id", uuidNew world); ("db", "orders")] |}.

Definition carolTrace : list event :=
  [EvAuthorize carolCtx; EvLog DebugLevel "Client identity: %#v.";
   EvLog DebugLevel "Will connect to database %q at %v.";
   EvSessionContext (uuidNew world)].

(** [cfg] with a rotation getter that fails for another reason than a
    missing state. *)
Definition cfgRotationDown : Config :=
  {| Clock := Clock cfg; DataDir := DataDir cfg; AuthClient := AuthClient cfg;
     AccessPoint := AccessPoint cfg; StreamEmitter := StreamEmitter cfg;
     TLSConfig := TLSConfig cfg; CipherSuites := CipherSuites cfg;
     Authorizer := Authorizer cfg;
     GetRotation :=
       Some (fun _ => (None, Some (ConnectionProblemError "storage unavailable")));
     Servers := Servers cfg; Credentials := Credentials cfg;
     OnHeartbeat := OnHeartbeat cfg |}.

Definition legacySession : sessiongo.sessionContext :=
  {| sessiongo.id := "1"; sessiongo.db := Some testDb;
     sessiongo.identity := alice; sessiongo.checker := everything;
     sessiongo.dbUser := "postgres"; sessiongo.dbName := "metrics";
     sessiongo.log := [] |}.

End examples.

(** ** Vocabulary of the statements *)

(** Some field other than the clock and the credential provider is unset. *)
Definition mandatoryUnset (c : Config) : Prop :=
  DataDir c = "" ∨ AuthClient c = None ∨ AccessPoint c = None
  ∨ StreamEmitter c = None ∨ TLSConfig c = None ∨ CipherSuites c = []
  ∨ Authorizer c = None ∨ GetRotation c = None ∨ Servers c = []
  ∨ OnHeartbeat c = None.

(** The messages of the configuration errors. *)
Definition configMessages : list string :=
  ["data dir missing"; "auth client log missing"; "access point missing";
   "stream emitter missing"; "tls config missing"; "cipersuites missing";
   "authorizer missing"; "rotation getter missing";
   "database servers missing"; "heartbeat missing"].

(** The calls that belong to authorization: consulting the authorizer and
    building the session. *)
Definition isAuthorizationStep (e : event) : bool :=
  match e with
  | EvAuthorize _ | EvSessionContext _ => true
  | _ => false
  end.

Definition labelStarts (l : list (string * Dynamic)) : list event :=
  map (λ p, EvGo (GoDynamicLabelStart p.1)) l.

Definition heartbeatRuns (l : list (string * Heartbeat)) : list event :=
  map (λ p, EvGo (GoHeartbeatRun p.1)) l.

Definition labelCloses (l : list (string * Dynamic)) : list event :=
  map (λ p, EvDynamicLabelClose p.1) l.

Definition heartbeatCloses (l : list (string * Heartbeat)) : list event :=
  map (λ p, EvHeartbeatClose p.1) l.

(** The order of [range] is arbitrary, but it visits each entry once. *)
Definition rangeFaithful (W : World) : Prop :=
  ∀ (A : Type) (m : gmap string A), rangeMap W A m ≡ₚ map_to_list m.

(** The labels merged into the descriptor at the start of a tick. *)
Definition withLabels (s : Server) (server : DatabaseServer) : DatabaseServer :=
  match dynamicLabels s !! Name server with
  | Some labels => SetDynamicLabels server (Get labels)
  | None => server
  end.

(** A step of construction that keeps the configuration of the server. *)
Definition keepsConfig (step : Server → M (Server * option error)) : Prop :=
  ∀ s s' err, outcome_of (step s) = Returns (s', err) → config s' = config s.

(** A trace in which nothing is started and no stream writer is closed. *)
Definition quiet (t : list event) : Prop :=
  started t = [] ∧ ∀ w, closesOf w t = [].

(** The connections a trace closed, in order. *)
Fixpoint closedConns (t : list event) : list Conn :=
  match t with
  | [] => []
  | EvConnClose conn :: rest => conn :: closedConns rest
  | _ :: rest => closedConns rest
  end.

(** The calls an engine run makes: the run itself and its audit closures. *)
Definition isEngineCall (e : event) : bool :=
  match e with
  | EvEngineHandleConnection _ _ | EvAudit _ => true
  | _ => false
  end.


(** The descriptors for which [initDynamicLabels] creates a worker. *)
Definition hasDynamicLabels (d : DatabaseServer) : bool :=
  negb (size (DynamicLabels d) =? 0)%nat.

(** A string in which the closing bracket does not occur. *)
Fixpoint bracketFree (s : string) : bool :=
  match s with
  | EmptyString => true
  | String.String a rest =>
      negb (String.eqb (String.String a EmptyString) "]") && bracketFree rest
  end.

(** What [handleConnection] returns once a stream writer exists, by the
    outcome of [dispatch] and of the engine. *)
Definition streamingOutcome (W : World) (s : Server) (ctx : context)
    (conn : Conn) (sessionCtx : session.Context) (streamWriter : StreamWriter)
    : outcome (option error) * list event :=
  match dispatch s sessionCtx streamWriter with
  | (Returns (Ok engine), _) =>
      (match outcome_of (runEngine W engine ctx sessionCtx conn) with
       | Returns (Some err) => Returns (Some (Wrap err))
       | Returns None => Returns None
       | Panics p => Panics p
       end,
       trace_of (runEngine W engine ctx sessionCtx conn))
  | (Returns (Err err), _) => (Returns (Some (Wrap err)), [])
  | (Panics p, _) => (Panics p, [])
  end.

(** The names under which the descriptors of a list get a label worker. *)
Definition labelNames (l : list DatabaseServer) : gset string :=
  list_to_set (Name <$> List.filter hasDynamicLabels l).

(** The names of the descriptors of a list. *)
Definition serverNames (l : list DatabaseServer) : gset string :=
  list_to_set (Name <$> l).

(** A construction step that went from [s] to [s']: it kept everything but
    the two worker tables and the certificate cache, and added workers
    under the given names. *)
Definition grows (s s' : Server) (labels hbs : gset string) : Prop :=
  config s' = config s ∧ closeContext s' = closeContext s
  ∧ middleware s' = middleware s ∧ Entry s' = Entry s
  ∧ dom (dynamicLabels s') = dom (dynamicLabels s) ∪ labels
  ∧ dom (heartbeats s') = dom (heartbeats s) ∪ hbs.

(** The messages a trace logged at error level, in order. *)
Fixpoint errorLogs (t : list event) : list string :=
  match t with
  | [] => []
  | EvLog ErrorLevel message :: rest => message :: errorLogs rest
  | _ :: rest => errorLogs rest
  end.

(** The goroutines that run a heartbeat. *)
Definition isHeartbeatRun (g : goroutine) : bool :=
  match g with
  | GoHeartbeatRun _ => true
  | _ => false
  end.

(** ** Proof automation *)

(** Case analysis on membership in an explicit list of calls. *)
Ltac each_member H :=
  repeat (apply elem_of_cons in H as [-> | H]); try done;
  by apply elem_of_nil in H.

Ltac field_unset :=
  match goal with
  | |- _ ∧ _ => split
  | |- (mandatoryUnset _ → _) =>
      intros _; eexists; split; [|reflexivity];
      unfold configMessages; set_solver
  | |- (¬ mandatoryUnset _ → _) =>
      intros Hset; exfalso; apply Hset; unfold mandatoryUnset; cbn;
      repeat (first [left; reflexivity | right]); reflexivity
  end.

(** * Properties *)

(** ** Sequencing *)

Lemma bind_Returns {A B : Type} (m : M A) (k : A → M B) (b : B) :
  outcome_of (m ≫= k) = Returns b →
  ∃ a, outcome_of m = Returns a ∧ outcome_of (k a) = Returns b.
Proof.
  destruct m as [[a|p] t]; [|discriminate].
  unfold mbind, M_bind. destruct (k a) as [r t'] eqn:Hk. cbn.
  intros ->. exists a. by rewrite Hk.
Qed.

Lemma bind_trace {A B : Type} (m : M A) (k : A → M B) (a : A) :
  outcome_of m = Returns a →
  trace_of (m ≫= k) = (trace_of m ++ trace_of (k a))%list.
Proof.
  destruct m as [[a'|p] t]; [|discriminate]. cbn. intros [= ->].
  by destruct (k a).
Qed.

(** ** Loops that only make calls *)

Section Loops.
Context {A : Type}.

Lemma forEach_calls (body : A → M unit) (f : A → event) (l : list A) :
  (∀ x, body x = call (f x)) →
  forEach body l = (Returns tt, map f l).
Proof.
  intros Hbody. induction l as [|x l IH]; [reflexivity|].
  cbn [forEach]. rewrite Hbody, IH. reflexivity.
Qed.

Lemma forEach_returns (body : A → M unit) (f : A → event) (l : list A) :
  (∀ x, body x = call (f x)) →
  outcome_of (forEach body l) = Returns tt.
Proof. intros Hbody. by rewrite (forEach_calls body f). Qed.
End Loops.

(** ** Lifecycle: Start and Close *)

Lemma Start_unfold (W : World) (s : Server) :
  Start W s =
  (Returns None,
   (labelStarts (rangeMap W _ (dynamicLabels s))
    ++ heartbeatRuns (rangeMap W _ (heartbeats s)))%list).
Proof.
  unfold Start, labelStarts, heartbeatRuns.
  rewrite (forEach_calls (A:=string * Dynamic) _
             (λ p, EvGo (GoDynamicLabelStart p.1)))
    by (by intros [??]).
  rewrite (forEach_calls (A:=string * Heartbeat) _
             (λ p, EvGo (GoHeartbeatRun p.1)))
    by (by intros [??]).
  cbn. by rewrite app_nil_r.
Qed.

Lemma closeHeartbeats_unfold (W : World) (l : list (string * Heartbeat))
    (errors : list (option error)) :
  closeHeartbeats W l errors =
  (Returns (errors ++ map (λ p, HeartbeatClose W p.2) l)%list,
   heartbeatCloses l).
Proof.
  revert errors. induction l as [|[name h] l IH]; intros errors.
  - cbn. by rewrite app_nil_r.
  - cbn [closeHeartbeats]. rewrite IH. cbn. by rewrite <- app_assoc.
Qed.

Lemma Close_unfold (W : World) (s : Server) :
  Close W s =
  (Returns (NewAggregate
              (map (λ p, HeartbeatClose W p.2) (rangeMap W _ (heartbeats s)))),
   (labelCloses (rangeMap W _ (dynamicLabels s))
    ++ [EvCancel (closeContext s)]
    ++ heartbeatCloses (rangeMap W _ (heartbeats s)))%list).
Proof.
  unfold Close, labelCloses.
  rewrite (forEach_calls (A:=string * Dynamic) _
             (λ p, EvDynamicLabelClose p.1))
    by (by intros [??]).
  rewrite closeHeartbeats_unfold. cbn. by rewrite app_nil_r.
Qed.

Lemma NewAggregate_exposes (errs : list (option error)) (e : error) :
  Some e ∈ errs →
  ∃ nonNils, NewAggregate errs = Some (TraceErr (AggregateError nonNils))
             ∧ nonNils = omap id errs ∧ e ∈ nonNils.
Proof.
  intros Hin. unfold NewAggregate.
  assert (He : e ∈ omap id errs)
    by (apply list_elem_of_omap; by exists (Some e)).
  destruct (omap id errs) as [|e0 rest] eqn:Heq.
  - by apply elem_of_nil in He.
  - eauto.
Qed.

Lemma NewAggregate_nil (errs : list (option error)) :
  (∀ o, o ∈ errs → o = None) → NewAggregate errs = None.
Proof.
  intros Hall. unfold NewAggregate.
  destruct (omap id errs) as [|e0 rest] eqn:Heq; [done|].
  assert (He : e0 ∈ omap id errs) by (rewrite Heq; left).
  apply list_elem_of_omap in He as (o & Ho & Hid).
  apply Hall in Ho. by subst.
Qed.

Lemma omap_id_fmap {A B : Type} (f : A → option B) (l : list A) :
  omap id (map f l) = omap f l.
Proof.
  induction l as [|x l IH]; [done|].
  cbn. destruct (f x); cbn; by rewrite IH.
Qed.

(** C10.  For every server constructed by [New], [Start] returns nil: the
    call only starts one goroutine per dynamic-label worker and one per
    heartbeat worker, and none of that can fail. *)
Theorem Start_returns_nil (W : World) (ctx : context) (cfg : Config)
    (s : Server) (t : list event) :
  New W ctx cfg = (Returns (Ok s), t) →
  outcome_of (Start W s) = Returns None
  ∧ trace_of (Start W s) =
      (labelStarts (rangeMap W _ (dynamicLabels s))
       ++ heartbeatRuns (rangeMap W _ (heartbeats s)))%list.
Proof. intros _. by rewrite Start_unfold. Qed.

Lemma Start_returns_nil_witness :
  New examples.world Background examples.cfg
  = (Returns (Ok examples.server),
     [EvNewDynamic "host-1"; EvSync "host-1"; EvNewHeartbeat "host-1";
      EvInitRDSRootCert "host-1"; EvNewHeartbeat "host-2";
      EvInitRDSRootCert "host-2"])
  ∧ outcome_of (Start examples.world examples.server) = Returns None.
Proof.
  assert (H : New examples.world Background examples.cfg
              = (Returns (Ok examples.server),
                 [EvNewDynamic "host-1"; EvSync "host-1"; EvNewHeartbeat "host-1";
                  EvInitRDSRootCert "host-1"; EvNewHeartbeat "host-2";
                  EvInitRDSRootCert "host-2"]))
    by (vm_compute; reflexivity).
  split; [exact H|].
  exact (proj1 (Start_returns_nil _ _ _ _ _ H)).
Defined.

(** C6.  [Close] first stops every dynamic-label worker, then cancels the
    lifecycle context, then closes every heartbeat worker; what it returns
    is the aggregate of all the heartbeat close results, so each heartbeat
    that fails to close has its error among those the returned error
    exposes, and nil is returned when none fails. *)
Theorem Close_order_and_aggregate (W : World) (s : Server) :
  rangeFaithful W →
  ∃ (labels : list (string * Dynamic)) (hbs : list (string * Heartbeat)),
    labels ≡ₚ map_to_list (dynamicLabels s)
    ∧ hbs ≡ₚ map_to_list (heartbeats s)
    ∧ trace_of (Close W s) =
        (labelCloses labels ++ [EvCancel (closeContext s)]
         ++ heartbeatCloses hbs)%list
    ∧ outcome_of (Close W s) =
        Returns (NewAggregate (map (λ p, HeartbeatClose W p.2) hbs))
    ∧ (∀ name h e,
         heartbeats s !! name = Some h → HeartbeatClose W h = Some e →
         ∃ errs,
           outcome_of (Close W s) = Returns (Some (TraceErr (AggregateError errs)))
           ∧ e ∈ errs
           ∧ errs ≡ₚ omap (λ p, HeartbeatClose W p.2)
                          (map_to_list (heartbeats s)))
    ∧ ((∀ name h, heartbeats s !! name = Some h → HeartbeatClose W h = None) →
       outcome_of (Close W s) = Returns None).
Proof.
  intros Hrange.
  exists (rangeMap W _ (dynamicLabels s)), (rangeMap W _ (heartbeats s)).
  rewrite Close_unfold. cbn [trace_of outcome_of fst snd].
  split; [apply Hrange|]. split; [apply Hrange|].
  split; [reflexivity|]. split; [reflexivity|]. split.
  - intros name h e Hlookup Hclose.
    assert (Hin : Some e ∈ map (λ p, HeartbeatClose W p.2)
                               (rangeMap W _ (heartbeats s))).
    { apply list_elem_of_fmap. exists (name, h). split; [done|].
      rewrite (Hrange _ (heartbeats s)). by apply elem_of_map_to_list. }
    destruct (NewAggregate_exposes _ _ Hin) as (errs & -> & Herrs & He).
    exists errs. split; [done|]. split; [done|].
    rewrite Herrs, omap_id_fmap. by rewrite (Hrange _ (heartbeats s)).
  - intros Hnone. f_equal. apply NewAggregate_nil.
    intros o Ho. apply list_elem_of_fmap in Ho as ([name h] & -> & Hin).
    rewrite (Hrange _ (heartbeats s)) in Hin.
    apply elem_of_map_to_list in Hin. by apply (Hnone name).
Qed.

Lemma Close_order_and_aggregate_witness :
  rangeFaithful examples.failingWorld
  ∧ Close examples.failingWorld examples.server
    = (Returns (Some (TraceErr (AggregateError
                                  [ConnectionProblemError "host-1";
                                   ConnectionProblemError "host-2"]))),
       [EvDynamicLabelClose "host-1"; EvCancel (WithCancel Background);
        EvHeartbeatClose "host-1"; EvHeartbeatClose "host-2"])
  ∧ ∃ (labels : list (string * Dynamic)) (hbs : list (string * Heartbeat)),
      trace_of (Close examples.failingWorld examples.server) =
        (labelCloses labels
         ++ [EvCancel (closeContext examples.server)]
         ++ heartbeatCloses hbs)%list.
Proof.
  assert (H : rangeFaithful examples.failingWorld) by (intros A m; reflexivity).
  split; [exact H|]. split; [vm_compute; reflexivity|].
  destruct (Close_order_and_aggregate examples.failingWorld examples.server H)
    as (labels & hbs & _ & _ & Htrace & _).
  by exists labels, hbs.
Defined.

(** ** Configuration validation *)

Lemma New_invalid (W : World) (ctx : context) (c : Config) (e : error) :
  (CheckAndSetDefaults W c).2 = Some e →
  New W ctx c = (Returns (Err (Wrap e)), []).
Proof.
  unfold New. destruct (CheckAndSetDefaults W c) as [c' err].
  cbn. by intros ->.
Qed.

Lemma CheckAndSetDefaults_cases (W : World) (c : Config) :
  (mandatoryUnset c →
   ∃ message, message ∈ configMessages
              ∧ (CheckAndSetDefaults W c).2 = Some (BadParameterError message []))
  ∧ (¬ mandatoryUnset c →
     Clock (CheckAndSetDefaults W c).1
     = Some (default (NewRealClock W) (Clock c))
     ∧ match Credentials c, NewSessionWithOptions W with
       | Some k, _ | None, Ok k =>
           (CheckAndSetDefaults W c).2 = None
           ∧ Credentials (CheckAndSetDefaults W c).1 = Some k
       | None, Err e => (CheckAndSetDefaults W c).2 = Some (Wrap e)
       end).
Proof.
  destruct c as [clock dd ac ap se tls cs az gr sv cr oh].
  unfold CheckAndSetDefaults.
  destruct clock as [clock|]; cbn [Clock setClock DataDir AuthClient AccessPoint
    StreamEmitter TLSConfig CipherSuites Authorizer GetRotation Servers
    Credentials OnHeartbeat].
  all: destruct (String.eqb_spec dd "") as [->|Hdd]; [repeat field_unset|].
  all: destruct ac as [ac|]; cbn [isNil]; [|repeat field_unset].
  all: destruct ap as [ap|]; cbn [isNil]; [|repeat field_unset].
  all: destruct se as [se|]; cbn [isNil]; [|repeat field_unset].
  all: destruct tls as [tls|]; cbn [isNil]; [|repeat field_unset].
  all: destruct cs as [|suite cs]; [repeat field_unset|].
  all: destruct az as [az|]; cbn [isNil]; [|repeat field_unset].
  all: destruct gr as [gr|]; cbn [isNil]; [|repeat field_unset].
  all: destruct sv as [|db sv]; [repeat field_unset|].
  all: destruct oh as [oh|]; cbn [isNil]; [|repeat field_unset].
  all: replace (Z.of_nat (length (suite :: cs)) =? 0)%Z with false
    by (symmetry; apply Z.eqb_neq; cbn [length]; lia).
  all: replace (Z.of_nat (length (db :: sv)) =? 0)%Z with false
    by (symmetry; apply Z.eqb_neq; cbn [length]; lia).
  all: (split;
        [ intros Hunset; exfalso; unfold mandatoryUnset in Hunset; cbn in Hunset;
          intuition congruence
        | intros _; destruct cr as [cr|]; [done|];
          destruct (NewSessionWithOptions W); done ]).
Qed.

(** C3, as the code has it.  A configuration in which the data directory,
    the auth client, the access point, the stream emitter, the TLS
    configuration, the cipher suites, the authorizer, the rotation getter,
    the descriptor list or the heartbeat callback is unset is rejected with
    a BadParameter error naming a missing field, and [New] returns that
    error without making any call.  When none of these is unset, validation
    fails only if the ambient credential discovery does; an unset clock is
    replaced by the real clock and an unset credential provider by the
    discovered one. *)
Theorem CheckAndSetDefaults_mandatory_fields (W : World) (c : Config) :
  (mandatoryUnset c →
   ∃ message,
     message ∈ configMessages
     ∧ (CheckAndSetDefaults W c).2 = Some (BadParameterError message [])
     ∧ ∀ ctx, New W ctx c
              = (Returns (Err (Wrap (BadParameterError message []))), []))
  ∧ (¬ mandatoryUnset c →
     Clock (CheckAndSetDefaults W c).1
     = Some (default (NewRealClock W) (Clock c))
     ∧ match Credentials c, NewSessionWithOptions W with
       | Some k, _ | None, Ok k =>
           (CheckAndSetDefaults W c).2 = None
           ∧ Credentials (CheckAndSetDefaults W c).1 = Some k
       | None, Err e => (CheckAndSetDefaults W c).2 = Some (Wrap e)
       end).
Proof.
  destruct (CheckAndSetDefaults_cases W c) as [Hunset Hset].
  split; [|exact Hset].
  intros H. destruct (Hunset H) as (message & Hin & Herr).
  exists message. split; [done|]. split; [done|].
  intros ctx. by apply New_invalid.
Qed.

Lemma CheckAndSetDefaults_mandatory_fields_witness :
  mandatoryUnset examples.cfgNoDataDir
  ∧ (∃ message,
       (CheckAndSetDefaults examples.world examples.cfgNoDataDir).2
       = Some (BadParameterError message []))
  ∧ ¬ mandatoryUnset examples.cfgDefaults
  ∧ Clock (CheckAndSetDefaults examples.world examples.cfgDefaults).1
    = Some (NewRealClock examples.world).
Proof.
  assert (H1 : mandatoryUnset examples.cfgNoDataDir) by (left; reflexivity).
  assert (H2 : ¬ mandatoryUnset examples.cfgDefaults).
  { unfold mandatoryUnset. cbn. intuition discriminate. }
  split; [exact H1|]. split.
  - destruct (proj1 (CheckAndSetDefaults_mandatory_fields examples.world _) H1)
      as (message & _ & Herr & _).
    by exists message.
  - split; [exact H2|].
    exact (proj1 (proj2 (CheckAndSetDefaults_mandatory_fields examples.world _) H2)).
Defined.

(** C3 as stated fails for the clock: a configuration whose only unset
    field is the clock passes validation, and the clock is set to the real
    clock.  Hence it is not the case that every configuration with an unset
    clock is rejected. *)
Lemma CheckAndSetDefaults_clock_unset_accepted :
  Clock examples.cfgNoClock = None
  ∧ (CheckAndSetDefaults examples.world examples.cfgNoClock).2 = None
  ∧ Clock (CheckAndSetDefaults examples.world examples.cfgNoClock).1
    = Some (NewRealClock examples.world)
  ∧ ¬ (∀ (W : World) (c : Config),
         Clock c = None → ∃ e, (CheckAndSetDefaults W c).2 = Some e).
Proof.
  split; [reflexivity|]. split; [reflexivity|]. split; [reflexivity|].
  intros Hclaim.
  destruct (Hclaim examples.world examples.cfgNoClock eq_refl) as [e He].
  discriminate He.
Qed.

(** ** Authorization *)

Lemma findServer_app (l : list DatabaseServer) (d : DatabaseServer)
    (serviceName : string) :
  findServer (l ++ [d]) serviceName
  = if String.eqb (DatabaseName d) serviceName then Some d
    else findServer l serviceName.
Proof. unfold findServer. by rewrite fold_left_app. Qed.

(** The lookup finds nothing exactly when no configured descriptor carries
    the requested name, and whatever it finds is a configured descriptor
    with that name. *)
Lemma findServer_None (l : list DatabaseServer) (serviceName : string) :
  findServer l serviceName = None
  ↔ ∀ d, d ∈ l → DatabaseName d ≠ serviceName.
Proof.
  induction l as [|d l IH] using rev_ind.
  - split; [intros _ d Hd; by apply elem_of_nil in Hd | done].
  - rewrite findServer_app.
    destruct (String.eqb_spec (DatabaseName d) serviceName) as [Heq|Hne].
    + split; [done|]. intros Hall. exfalso.
      apply (Hall d); [apply elem_of_app; right; left | done].
    + rewrite IH. split.
      * intros Hall d' [Hd'|Hd']%elem_of_app; [by apply Hall|].
        apply list_elem_of_singleton in Hd'. by subst.
      * intros Hall d' Hd'. apply Hall, elem_of_app. by left.
Qed.

Lemma findServer_Some (l : list DatabaseServer) (serviceName : string)
    (d : DatabaseServer) :
  findServer l serviceName = Some d →
  d ∈ l ∧ DatabaseName d = serviceName.
Proof.
  induction l as [|d' l IH] using rev_ind; [done|].
  rewrite findServer_app.
  destruct (String.eqb_spec (DatabaseName d') serviceName) as [Heq|Hne].
  - intros [= <-]. split; [apply elem_of_app; right; left | done].
  - intros [Hin Hname]%IH. split; [apply elem_of_app; by left | done].
Qed.

(** C4.  When the principal found in the context is neither a local nor a
    remote user, [authorize] returns a BadParameter error; it makes no call
    at all, so the authorizer is not consulted and no session is built. *)
Theorem authorize_rejects_other_principals (W : World) (s : Server)
    (ctx : context) :
  (∀ identity, Value ctx ContextUser ≠ Some (LocalUser identity)) →
  (∀ identity, Value ctx ContextUser ≠ Some (RemoteUser identity)) →
  ∃ e,
    authorize W s ctx = (Returns (Err e), [])
    ∧ e = BadParameterError "invalid identity: %T"
                            [typeName (Value ctx ContextUser)]
    ∧ IsBadParameter e = true
    ∧ (EvAuthorize ctx ∉ trace_of (authorize W s ctx))
    ∧ ∀ sessionCtx, outcome_of (authorize W s ctx) ≠ Returns (Ok sessionCtx).
Proof.
  intros Hlocal Hremote. eexists.
  assert (Hauth : authorize W s ctx
                  = (Returns (Err (BadParameterError "invalid identity: %T"
                                     [typeName (Value ctx ContextUser)])), [])).
  { unfold authorize.
    destruct (Value ctx ContextUser) as [[identity|identity|role|role|addr]|];
      try reflexivity.
    - by destruct (Hlocal identity).
    - by destruct (Hremote identity). }
  rewrite Hauth. split; [reflexivity|]. split; [reflexivity|].
  split; [reflexivity|]. split; [apply not_elem_of_nil | done].
Qed.

Lemma authorize_rejects_other_principals_witness :
  ∃ e, authorize examples.world examples.server examples.proxyCtx
       = (Returns (Err e), [])
       ∧ IsBadParameter e = true.
Proof.
  destruct (authorize_rejects_other_principals examples.world examples.server
              examples.proxyCtx)
    as (e & Hauth & _ & Hbad & _).
  - intros identity. cbn. discriminate.
  - intros identity. cbn. discriminate.
  - by exists e.
Defined.

(** ** Dispatch *)

(** C5.  For a session whose descriptor names a protocol other than
    postgres, [dispatch] returns no engine but a BadParameter error whose
    argument is that protocol; for postgres it returns an engine holding
    the server's auth client, credential provider, root-certificate cache
    and clock, the three audit closures bound to the given stream writer,
    and the session's logger.  It makes no call in either case. *)
Theorem dispatch_by_protocol (s : Server) (sessionCtx : session.Context)
    (server : DatabaseServer) (streamWriter : StreamWriter) :
  session.Server sessionCtx = Some server →
  (Protocol server ≠ ProtocolPostgres →
   dispatch s sessionCtx streamWriter
   = (Returns (Err (BadParameterError "unsupported database procotol %q"
                                      [Protocol server])), []))
  ∧ (Protocol server = ProtocolPostgres →
     dispatch s sessionCtx streamWriter
     = (Returns
          (Ok (PostgresEngine
                 {| postgres.AuthClient := AuthClient (config s);
                    postgres.Credentials := Credentials (config s);
                    postgres.RDSCACerts := rdsCACerts s;
                    postgres.OnSessionStart := emitSessionStartEventFn streamWriter;
                    postgres.OnSessionEnd := emitSessionEndEventFn streamWriter;
                    postgres.OnQuery := emitQueryEventFn streamWriter;
                    postgres.Clock := Clock (config s);
                    postgres.Log := session.Log sessionCtx |})), [])).
Proof.
  intros Hserver. unfold dispatch. rewrite Hserver.
  destruct (String.eqb_spec (Protocol server) ProtocolPostgres) as [Heq|Hne];
    split; intros H; done.
Qed.

Lemma dispatch_by_protocol_witness :
  session.Server examples.mysqlSession = Some examples.mysqlDb
  ∧ Protocol examples.mysqlDb ≠ ProtocolPostgres
  ∧ dispatch examples.server examples.mysqlSession examples.writer
    = (Returns (Err (BadParameterError "unsupported database procotol %q"
                                       ["mysql"])), [])
  ∧ Protocol examples.testDb = ProtocolPostgres
  ∧ ∃ engine,
      dispatch examples.server examples.pgSession examples.writer
      = (Returns (Ok (PostgresEngine engine)), [])
      ∧ postgres.OnQuery engine = emitQueryEventFn examples.writer.
Proof.
  assert (H1 : session.Server examples.mysqlSession = Some examples.mysqlDb)
    by reflexivity.
  assert (H2 : Protocol examples.mysqlDb ≠ ProtocolPostgres)
    by (vm_compute; discriminate).
  assert (H3 : session.Server examples.pgSession = Some examples.testDb)
    by reflexivity.
  assert (H4 : Protocol examples.testDb = ProtocolPostgres) by reflexivity.
  split; [exact H1|]. split; [exact H2|]. split.
  - exact (proj1 (dispatch_by_protocol examples.server _ _ examples.writer H1) H2).
  - split; [exact H4|]. eexists. split.
    + exact (proj2 (dispatch_by_protocol examples.server _ _ examples.writer H3) H4).
    + reflexivity.
Defined.

(** ** Service resolution in authorize *)

(** Whatever session [authorize] returns has a configured descriptor as its
    target, the one carrying the requested service name. *)
Lemma authorize_session_target (W : World) (s : Server) (ctx : context)
    (sessionCtx : session.Context) (t : list event) :
  authorize W s ctx = (Returns (Ok sessionCtx), t) →
  ∃ d, session.Server sessionCtx = Some d
       ∧ d ∈ Servers (config s)
       ∧ DatabaseName d = ServiceName (Route (session.Identity sessionCtx)).
Proof.
  unfold authorize.
  destruct (Value ctx ContextUser) as [[identity|identity|role|role|addr]|];
    try discriminate.
  all: destruct (Authorizer (config s)) as [authz|]; [|discriminate].
  all: cbn; destruct (authz ctx) as [authContext|err]; [|discriminate].
  all: destruct (findServer _ _) as [d|] eqn:Hfind; [|discriminate].
  all: cbn; intros [= <- <-]; cbn.
  all: apply findServer_Some in Hfind as [Hin Hname]; eauto.
Qed.

(** When the requested service name matches no configured descriptor,
    the lookup leaves [server] nil and the next statement calls a method
    on it: [authorize] panics after consulting the authorizer, it does not
    return. *)
Lemma authorize_unresolved_service (W : World) (s : Server) (ctx : context)
    (authz : AuthorizerT) (authContext : AuthContext) :
  (∃ identity, Value ctx ContextUser = Some (LocalUser identity)
               ∨ Value ctx ContextUser = Some (RemoteUser identity)) →
  Authorizer (config s) = Some authz →
  authz ctx = Ok authContext →
  (∀ d, d ∈ Servers (config s) →
        DatabaseName d ≠ ServiceName (Route (AuthIdentity authContext))) →
  authorize W s ctx
  = (Panics (NilDereference "server"),
     [EvAuthorize ctx; EvLog DebugLevel "Client identity: %#v."]).
Proof.
  intros (identity & Huser) Hauthz Hok Hnone.
  apply findServer_None in Hnone.
  unfold authorize.
  destruct Huser as [-> | ->]; rewrite Hauthz; cbn; rewrite Hok, Hnone;
    reflexivity.
Qed.

(** C1 on the code.  The identity of bob asks for the service "missing",
    which no configured descriptor carries; the authorizer accepts bob.
    [authorize] returns neither an error nor a session: it panics on the
    nil descriptor. *)
Theorem authorize_unknown_service_panics :
  (∀ d, d ∈ Servers (config examples.server) → DatabaseName d ≠ "missing")
  ∧ authorize examples.world examples.server examples.bobCtx
    = (Panics (NilDereference "server"),
       [EvAuthorize examples.bobCtx; EvLog DebugLevel "Client identity: %#v."])
  ∧ (∀ e, outcome_of (authorize examples.world examples.server examples.bobCtx)
          ≠ Returns (Err e)).
Proof.
  assert (Hp : authorize examples.world examples.server examples.bobCtx
               = (Panics (NilDereference "server"),
                  [EvAuthorize examples.bobCtx;
                   EvLog DebugLevel "Client identity: %#v."]))
    by (vm_compute; reflexivity).
  split; [|split; [exact Hp | by rewrite Hp]].
  apply (findServer_None (Servers (config examples.server)) "missing").
  vm_compute; reflexivity.
Qed.

(** ** The heartbeat info-provider *)

(** A getter that answers not-found with a nil rotation makes the
    info-provider dereference the nil pointer. *)
Lemma getServerInfoFunc_nil_rotation (W : World) (s : Server)
    (server : DatabaseServer)
    (getRotation : string → option Rotation * option error) (e : error) :
  GetRotation (config s) = Some getRotation →
  getRotation (RoleDatabase W) = (None, Some e) →
  IsNotFound e = true →
  getServerInfoFunc W s server = (Panics (NilDereference "rotation"), []).
Proof.
  intros Hget Hrot Hnf. unfold getServerInfoFunc.
  rewrite Hget, Hrot, Hnf. reflexivity.
Qed.

(** When the getter hands back a rotation, with no error or with a
    not-found error, the tick sets it, resets the TTL against the clock and
    returns the descriptor. *)
Lemma getServerInfoFunc_rotation_present (W : World) (s : Server)
    (server : DatabaseServer)
    (getRotation : string → option Rotation * option error)
    (r : Rotation) (err : option error) (clock : ClockT) :
  GetRotation (config s) = Some getRotation →
  getRotation (RoleDatabase W) = (Some r, err) →
  (∀ e, err = Some e → IsNotFound e = true) →
  Clock (config s) = Some clock →
  getServerInfoFunc W s server
  = (Returns (SetTTL (SetRotation (withLabels s server) r) clock
                     (ServerAnnounceTTL W), None), []).
Proof.
  intros Hget Hrot Hnf Hclock. unfold getServerInfoFunc, withLabels.
  rewrite Hget, Hrot, Hclock.
  destruct err as [e|]; [rewrite (Hnf e eq_refl)|]; reflexivity.
Qed.

(** Any other error of the getter is logged; the TTL is still reset. *)
Lemma getServerInfoFunc_other_error (W : World) (s : Server)
    (server : DatabaseServer)
    (getRotation : string → option Rotation * option error)
    (rotation : option Rotation) (e : error) (clock : ClockT) :
  GetRotation (config s) = Some getRotation →
  getRotation (RoleDatabase W) = (rotation, Some e) →
  IsNotFound e = false →
  Clock (config s) = Some clock →
  getServerInfoFunc W s server
  = (Returns (SetTTL (withLabels s server) clock (ServerAnnounceTTL W), None),
     [EvLog WarnLevel "Failed to get rotation state."]).
Proof.
  intros Hget Hrot Hnf Hclock. unfold getServerInfoFunc, withLabels.
  rewrite Hget, Hrot, Hclock, Hnf. reflexivity.
Qed.

(** C2 on the code.  The server is built from a configuration whose
    rotation getter answers (nil, not found).  The tick does not return
    the descriptor: it panics on the nil rotation, before the TTL is
    touched. *)
Theorem getServerInfoFunc_not_found_panics :
  (∃ getRotation e,
     GetRotation (config (examples.serverOf examples.cfgNoRotation))
     = Some getRotation
     ∧ getRotation (RoleDatabase examples.world) = (None, Some e)
     ∧ IsNotFound e = true)
  ∧ getServerInfoFunc examples.world
      (examples.serverOf examples.cfgNoRotation) examples.testDb
    = (Panics (NilDereference "rotation"), [])
  ∧ (∀ r, outcome_of (getServerInfoFunc examples.world
                        (examples.serverOf examples.cfgNoRotation)
                        examples.testDb) ≠ Returns r).
Proof.
  assert (Hp : getServerInfoFunc examples.world
                 (examples.serverOf examples.cfgNoRotation) examples.testDb
               = (Panics (NilDereference "rotation"), []))
    by (vm_compute; reflexivity).
  split; [|split; [exact Hp | by rewrite Hp]].
  eexists _, _. split; [vm_compute; reflexivity|].
  split; reflexivity.
Qed.

(** ** Construction leaves the configuration as validated *)

Lemma initDynamicLabels_keepsConfig (W : World) (ctx : context)
    (server : DatabaseServer) :
  keepsConfig (λ s, initDynamicLabels W s ctx server).
Proof.
  intros s s' err. unfold initDynamicLabels.
  destruct (size (DynamicLabels server) =? 0)%nat; cbn.
  - by intros [= <- <-].
  - destruct (NewDynamic W ctx (DynamicLabels server)); cbn; by intros [= <- <-].
Qed.

Lemma initHeartbeat_keepsConfig (W : World) (ctx : context)
    (server : DatabaseServer) :
  keepsConfig (λ s, initHeartbeat W s ctx server).
Proof.
  intros s s' err. unfold initHeartbeat. cbn.
  destruct (NewHeartbeat W _); cbn; by intros [= <- <-].
Qed.

Lemma initRDSRootCertOf_keepsConfig (W : World) (ctx : context)
    (server : DatabaseServer) :
  keepsConfig (λ s, initRDSRootCertOf W s ctx server).
Proof.
  intros s s' err. unfold initRDSRootCertOf. cbn.
  destruct (initRDSRootCert W _ _); cbn; by intros [= <- <-].
Qed.

Lemma initDatabaseServer_keepsConfig (W : World) (ctx : context)
    (server : DatabaseServer) :
  keepsConfig (λ s, initDatabaseServer W s ctx server).
Proof.
  intros s s' err H. unfold initDatabaseServer in H.
  apply bind_Returns in H as ([s1 [e1|]] & H1 & H);
    apply initDynamicLabels_keepsConfig in H1.
  { cbn in H. by simplify_eq. }
  apply bind_Returns in H as ([s2 [e2|]] & H2 & H);
    apply initHeartbeat_keepsConfig in H2.
  { cbn in H. simplify_eq. congruence. }
  apply bind_Returns in H as ([s3 [e3|]] & H3 & H);
    apply initRDSRootCertOf_keepsConfig in H3.
  all: cbn in H; simplify_eq; congruence.
Qed.

Lemma initDatabaseServers_keepsConfig (W : World) (ctx : context)
    (servers : list DatabaseServer) :
  keepsConfig (λ s, initDatabaseServers W s ctx servers).
Proof.
  induction servers as [|db rest IH]; intros s s' err H.
  - cbn in H. by simplify_eq.
  - cbn [initDatabaseServers] in H.
    apply bind_Returns in H as ([s1 [e1|]] & H1 & H);
      apply initDatabaseServer_keepsConfig in H1.
    + cbn in H. by simplify_eq.
    + apply IH in H. congruence.
Qed.

(** A server built by [New] demands a verified client certificate in every
    handshake. *)
Lemma New_requires_client_cert (W : World) (ctx : context) (cfg : Config)
    (s : Server) (t : list event) :
  New W ctx cfg = (Returns (Ok s), t) →
  ∃ tc, TLSConfig (config s) = Some tc
        ∧ ClientAuth tc = RequireAndVerifyClientCert.
Proof.
  intros H. apply (f_equal outcome_of) in H. revert H.
  unfold New. destruct (CheckAndSetDefaults W cfg) as [cfg' [e|]];
    [discriminate|].
  destruct (TLSConfig cfg') as [tc|]; [|discriminate].
  intros H. apply bind_Returns in H as ([s1 [e1|]] & H1 & H);
    apply initDatabaseServers_keepsConfig in H1; [discriminate|].
  cbn in H. simplify_eq. rewrite H1. cbn. eauto.
Qed.

(** ** The TLS identity gate *)

Lemma HandleConnection_handshake_failed (W : World) (s : Server) (conn : Conn)
    (err : error) :
  Handshake W (TLSConfig (config s)) conn = Some err →
  HandleConnection W s conn
  = (Returns tt,
     [EvLog DebugLevel "Accepted connection."; EvHandshake conn;
      EvLog ErrorLevel "Failed to perform TLS handshake."; EvConnClose conn]).
Proof. intros H. unfold HandleConnection. by rewrite H. Qed.

Lemma HandleConnection_no_identity (W : World) (s : Server) (conn : Conn)
    (err : error) :
  Handshake W (TLSConfig (config s)) conn = None →
  WrapContext W (middleware s) Background conn = Err err →
  HandleConnection W s conn
  = (Returns tt,
     [EvLog DebugLevel "Accepted connection."; EvHandshake conn;
      EvWrapContext conn;
      EvLog ErrorLevel "Failed to extract identity from connection.";
      EvConnClose conn]).
Proof. intros Hh Hw. unfold HandleConnection. by rewrite Hh, Hw. Qed.

Lemma HandleConnection_identified (W : World) (s : Server) (conn : Conn)
    (ctx : context) :
  Handshake W (TLSConfig (config s)) conn = None →
  WrapContext W (middleware s) Background conn = Ok ctx →
  ∃ tail,
    trace_of (HandleConnection W s conn)
    = ([EvLog DebugLevel "Accepted connection."; EvHandshake conn;
        EvWrapContext conn]
       ++ trace_of (handleConnection W s ctx conn)
       ++ tail ++ [EvConnClose conn])%list
    ∧ (tail = [] ∨ tail = [EvLog ErrorLevel "Failed to handle connection."]).
Proof.
  intros Hh Hw. unfold HandleConnection. rewrite Hh, Hw.
  destruct (handleConnection W s ctx conn) as [[[e|]|p] t]; cbn.
  - exists [EvLog ErrorLevel "Failed to handle connection."].
    split; [|by right]. by rewrite <- !app_assoc.
  - exists []. split; [|by left]. by rewrite ?app_nil_r, <- ?app_assoc.
  - exists []. split; [|by left]. by rewrite ?app_nil_r, <- ?app_assoc.
Qed.

(** C7.  On a server built by [New] the handshake demands a verified client
    certificate.  When the handshake fails, or the identity cannot be
    extracted, [HandleConnection] returns after logging the failure and
    closing the connection, and no authorization step is among its calls.
    Otherwise the calls of [handleConnection], where all of authorization
    happens, come after the handshake and the identity extraction and
    before the connection is closed.  In general every authorization step
    among the calls comes after the handshake, and the handshake has
    succeeded. *)
Theorem HandleConnection_handshake_first (W : World) (ctx0 : context)
    (cfg : Config) (s : Server) (t0 : list event) (conn : Conn) :
  New W ctx0 cfg = (Returns (Ok s), t0) →
  (∃ tc, TLSConfig (config s) = Some tc
         ∧ ClientAuth tc = RequireAndVerifyClientCert)
  ∧ (Handshake W (TLSConfig (config s)) conn ≠ None
     ∨ (∃ err, WrapContext W (middleware s) Background conn = Err err) →
     outcome_of (HandleConnection W s conn) = Returns tt
     ∧ last (trace_of (HandleConnection W s conn)) = Some (EvConnClose conn)
     ∧ ∀ e, e ∈ trace_of (HandleConnection W s conn) →
            isAuthorizationStep e = false)
  ∧ (∀ ctx,
       Handshake W (TLSConfig (config s)) conn = None →
       WrapContext W (middleware s) Background conn = Ok ctx →
       ∃ tail,
         trace_of (HandleConnection W s conn)
         = ([EvLog DebugLevel "Accepted connection."; EvHandshake conn;
             EvWrapContext conn]
            ++ trace_of (handleConnection W s ctx conn)
            ++ tail ++ [EvConnClose conn])%list)
  ∧ (∀ pre e post,
       trace_of (HandleConnection W s conn) = (pre ++ e :: post)%list →
       isAuthorizationStep e = true →
       Handshake W (TLSConfig (config s)) conn = None
       ∧ EvHandshake conn ∈ pre).
Proof.
  intros Hnew. split; [by eapply New_requires_client_cert|].
  destruct (Handshake W (TLSConfig (config s)) conn) as [err|] eqn:Hh.
  - rewrite (HandleConnection_handshake_failed W s conn err Hh).
    cbn [trace_of outcome_of fst snd]. split; [|split].
    + intros _. split; [done|]. split; [done|].
      intros e He. each_member He.
    + intros ctx Hnone. discriminate Hnone.
    + intros pre e post Heq Hstep. exfalso.
      assert (He : e ∈ [EvLog DebugLevel "Accepted connection."; EvHandshake conn;
                        EvLog ErrorLevel "Failed to perform TLS handshake.";
                        EvConnClose conn])
        by (rewrite Heq; set_solver).
      each_member He.
  - destruct (WrapContext W (middleware s) Background conn) as [ctx|err] eqn:Hw.
    + split; [intros [?|[? ?]]; done|].
      destruct (HandleConnection_identified W s conn ctx Hh Hw)
        as (tail & Htrace & _).
      split.
      * intros ctx' _ [= <-]. by exists tail.
      * rewrite Htrace. intros pre e post Heq Hstep. split; [done|].
        destruct pre as [|e0 [|e1 pre]]; cbn in Heq; simplify_eq; try done.
        set_solver.
    + rewrite (HandleConnection_no_identity W s conn err Hh Hw).
      cbn [trace_of outcome_of fst snd]. split; [|split].
      * intros _. split; [done|]. split; [done|].
        intros e He. each_member He.
      * intros ctx _ Hok. discriminate Hok.
      * intros pre e post Heq Hstep. exfalso.
        assert (He : e ∈ [EvLog DebugLevel "Accepted connection.";
                          EvHandshake conn; EvWrapContext conn;
                          EvLog ErrorLevel
                            "Failed to extract identity from connection.";
                          EvConnClose conn])
          by (rewrite Heq; set_solver).
        each_member He.
Qed.

Lemma HandleConnection_handshake_first_witness :
  New examples.failingWorld Background examples.cfg
  = (Returns (Ok examples.server),
     [EvNewDynamic "host-1"; EvSync "host-1"; EvNewHeartbeat "host-1";
      EvInitRDSRootCert "host-1"; EvNewHeartbeat "host-2";
      EvInitRDSRootCert "host-2"])
  ∧ Handshake examples.failingWorld (TLSConfig (config examples.server))
      examples.conn ≠ None
  ∧ outcome_of (HandleConnection examples.failingWorld examples.server
                  examples.conn) = Returns tt
  ∧ last (trace_of (HandleConnection examples.failingWorld examples.server
                      examples.conn)) = Some (EvConnClose examples.conn).
Proof.
  assert (H : New examples.failingWorld Background examples.cfg
              = (Returns (Ok examples.server),
                 [EvNewDynamic "host-1"; EvSync "host-1"; EvNewHeartbeat "host-1";
                  EvInitRDSRootCert "host-1"; EvNewHeartbeat "host-2";
                  EvInitRDSRootCert "host-2"]))
    by (vm_compute; reflexivity).
  assert (Hh : Handshake examples.failingWorld
                 (TLSConfig (config examples.server)) examples.conn ≠ None)
    by (vm_compute; discriminate).
  split; [exact H|]. split; [exact Hh|].
  destruct (HandleConnection_handshake_first _ _ _ _ _ examples.conn H)
    as (_ & Hfail & _ & _).
  destruct (Hfail (or_introl Hh)) as (Hout & Hlast & _).
  by split.
Defined.

(** ** The audit stream is closed once, against the server's context *)

Lemma started_app (t1 t2 : list event) :
  started (t1 ++ t2) = (started t1 ++ started t2)%list.
Proof.
  induction t1 as [|e t1 IH]; [done|].
  destruct e; cbn; by rewrite ?IH.
Qed.

Lemma closesOf_app (w : StreamWriter) (t1 t2 : list event) :
  closesOf w (t1 ++ t2) = (closesOf w t1 ++ closesOf w t2)%list.
Proof.
  induction t1 as [|e t1 IH]; [done|].
  destruct e; cbn; rewrite ?IH; try done.
  by destruct (String.eqb _ _).
Qed.

Lemma quiet_app (t1 t2 : list event) : quiet t1 → quiet t2 → quiet (t1 ++ t2).
Proof.
  intros [Hs1 Hc1] [Hs2 Hc2]. split.
  - by rewrite started_app, Hs1, Hs2.
  - intros w. by rewrite closesOf_app, Hc1, Hc2.
Qed.

Lemma authorize_quiet (W : World) (s : Server) (ctx : context) :
  quiet (trace_of (authorize W s ctx)).
Proof.
  unfold authorize.
  destruct (Value ctx ContextUser) as [[identity|identity|role|role|addr]|];
    try done.
  all: destruct (Authorizer (config s)) as [authz|]; [|done].
  all: cbn; destruct (authz ctx) as [authContext|err]; [|done].
  all: by destruct (findServer _ _).
Qed.

Lemma dispatch_trace (s : Server) (sessionCtx : session.Context)
    (streamWriter : StreamWriter) :
  trace_of (dispatch s sessionCtx streamWriter) = [].
Proof.
  unfold dispatch. destruct (session.Server sessionCtx) as [server|]; [|done].
  by destruct (String.eqb _ _).
Qed.

Lemma runEngine_quiet (W : World) (engine : DatabaseEngine) (ctx : context)
    (sessionCtx : session.Context) (conn : Conn) :
  quiet (trace_of (runEngine W engine ctx sessionCtx conn)).
Proof.
  unfold runEngine.
  destruct (EngineHandleConnection W engine ctx sessionCtx conn) as [out audits].
  cbn. induction audits as [|k audits [IHs IHc]]; [done|].
  split; [exact IHs | exact IHc].
Qed.

(** The calls of [handleConnection] once the session and its stream writer
    exist: those of [authorize], the creation of the writer, the calls of
    dispatch and of the engine, and last the start of the closer. *)
Lemma handleConnection_trace (W : World) (s : Server) (ctx : context)
    (conn : Conn) (sessionCtx : session.Context) (t : list event)
    (streamWriter : StreamWriter) :
  authorize W s ctx = (Returns (Ok sessionCtx), t) →
  newStreamWriter W sessionCtx = Ok streamWriter →
  ∃ body,
    quiet body
    ∧ trace_of (handleConnection W s ctx conn)
      = (t ++ EvNewStreamWriter (session.ID sessionCtx) :: body
         ++ [EvGo (GoStreamWriterClose streamWriter (closeContext s)
                                       (session.Log sessionCtx))])%list.
Proof.
  intros Hauth Hnew. unfold handleConnection. rewrite Hauth.
  cbn [mbind M_bind]. rewrite Hnew. unfold defer.
  pose proof (dispatch_trace s sessionCtx streamWriter) as Hd.
  destruct (dispatch s sessionCtx streamWriter) as [[[engine|e]|p] td];
    cbn in Hd; subst td.
  - pose proof (runEngine_quiet W engine ctx sessionCtx conn) as He.
    cbn -[runEngine].
    destruct (runEngine W engine ctx sessionCtx conn) as [[[e|]|p] te];
      cbn in He |- *; exists te; (split; [done|]);
      by rewrite ?app_nil_r.
  - exists []. by split.
  - exists []. by split.
Qed.

Lemma closesOf_goBody (W : World) (w : StreamWriter) (ctx : context)
    (log : Logger) :
  closesOf w (goBody W (GoStreamWriterClose w ctx log)) = [ctx].
Proof.
  cbn. rewrite String.eqb_refl.
  by destruct (StreamWriterClose W w ctx).
Qed.

(** C9.  Once [authorize] has returned a session and the stream writer has
    been created, [handleConnection] starts the closer of that writer
    exactly once, as its last call, however dispatch and the engine run end
    (with nil, with an error or with a panic); it does not close the writer
    itself.  Among all the calls made, those of the started closer
    included, the writer is closed once, with the server's close context. *)
Theorem handleConnection_closes_stream_once (W : World) (s : Server)
    (ctx : context) (conn : Conn) (sessionCtx : session.Context)
    (t : list event) (streamWriter : StreamWriter) :
  authorize W s ctx = (Returns (Ok sessionCtx), t) →
  newStreamWriter W sessionCtx = Ok streamWriter →
  started (trace_of (handleConnection W s ctx conn))
  = [GoStreamWriterClose streamWriter (closeContext s) (session.Log sessionCtx)]
  ∧ last (trace_of (handleConnection W s ctx conn))
    = Some (EvGo (GoStreamWriterClose streamWriter (closeContext s)
                                      (session.Log sessionCtx)))
  ∧ closesOf streamWriter (trace_of (handleConnection W s ctx conn)) = []
  ∧ closesOf streamWriter
      (allCalls W (trace_of (handleConnection W s ctx conn)))
    = [closeContext s].
Proof.
  intros Hauth Hnew.
  destruct (handleConnection_trace W s ctx conn _ _ _ Hauth Hnew)
    as (body & [Hbs Hbc] & Htrace).
  destruct (authorize_quiet W s ctx) as [Hts Htc]. rewrite Hauth in Hts, Htc.
  cbn [trace_of snd] in Hts, Htc.
  assert (Hstarted : started (trace_of (handleConnection W s ctx conn))
                     = [GoStreamWriterClose streamWriter (closeContext s)
                                            (session.Log sessionCtx)]).
  { rewrite Htrace, started_app, Hts. cbn [started app].
    by rewrite started_app, Hbs. }
  assert (Hsync : closesOf streamWriter (trace_of (handleConnection W s ctx conn))
                  = []).
  { rewrite Htrace, closesOf_app, Htc. cbn [closesOf app].
    by rewrite closesOf_app, Hbc. }
  split; [exact Hstarted|]. split.
  - rewrite Htrace, app_comm_cons, app_assoc. apply last_snoc.
  - split; [exact Hsync|].
    unfold allCalls. rewrite closesOf_app, Hsync, Hstarted.
    cbn [map concat app]. rewrite app_nil_r. apply closesOf_goBody.
Qed.

Lemma handleConnection_closes_stream_once_witness :
  authorize examples.world examples.server examples.aliceCtx
  = (Returns (Ok examples.aliceSession), examples.aliceTrace)
  ∧ newStreamWriter examples.world examples.aliceSession
    = Ok {| stream := uuidNew examples.world |}
  ∧ closesOf {| stream := uuidNew examples.world |}
      (allCalls examples.world
         (trace_of (handleConnection examples.world examples.server
                      examples.aliceCtx examples.conn)))
    = [closeContext examples.server]
  ∧ outcome_of (handleConnection examples.failingWorld examples.server
                  examples.aliceCtx examples.conn)
    = Returns (Some (Wrap (ConnectionProblemError "connection reset")))
  ∧ closesOf {| stream := uuidNew examples.world |}
      (allCalls examples.failingWorld
         (trace_of (handleConnection examples.failingWorld examples.server
                      examples.aliceCtx examples.conn)))
    = [closeContext examples.server].
Proof.
  assert (H1 : authorize examples.world examples.server examples.aliceCtx
               = (Returns (Ok examples.aliceSession), examples.aliceTrace))
    by (vm_compute; reflexivity).
  assert (H2 : newStreamWriter examples.world examples.aliceSession
               = Ok {| stream := uuidNew examples.world |}) by reflexivity.
  assert (H3 : authorize examples.failingWorld examples.server examples.aliceCtx
               = (Returns (Ok examples.aliceSession), examples.aliceTrace))
    by (vm_compute; reflexivity).
  assert (H4 : newStreamWriter examples.failingWorld examples.aliceSession
               = Ok {| stream := uuidNew examples.world |}) by reflexivity.
  split; [exact H1|]. split; [exact H2|]. split.
  - exact (proj2 (proj2 (proj2
      (handleConnection_closes_stream_once _ _ _ examples.conn _ _ _ H1 H2)))).
  - split; [vm_compute; reflexivity|].
    exact (proj2 (proj2 (proj2
      (handleConnection_closes_stream_once _ _ _ examples.conn _ _ _ H3 H4)))).
Defined.

(** ** The engine's access check *)

Lemma matchesAllowList_spec (allow : list string) (requested : string) :
  access.matchesAllowList allow requested = true
  ↔ access.Wildcard ∈ allow ∨ requested ∈ allow.
Proof.
  unfold access.matchesAllowList.
  induction allow as [|entry allow IH]; cbn.
  - split; [done|]. intros [H|H]; by apply elem_of_nil in H.
  - rewrite orb_true_iff, orb_true_iff, IH, !String.eqb_eq, !elem_of_cons.
    intuition congruence.
Qed.

(** The check gives what every row of the table of TestDatabaseAccess
    expects. *)
Lemma access_tests_pass : forallb access.passes access.tests = true.
Proof. reflexivity. Qed.

(** C8.  The engine grants a requested (database name, database user) pair
    exactly when the name is admitted by the allow-list of names, through a
    wildcard entry or as a member, and the user is admitted by the
    allow-list of users in the same way.  In every other case the run ends
    with an access-denied error and nothing has been sent to the backend;
    when the pair is granted the queries are executed. *)
Theorem engine_access_granted_iff (checker : AccessChecker)
    (dbName dbUser : string) (queries : list string) :
  (access.checkAccess checker dbName dbUser = None
   ↔ (access.Wildcard ∈ allowDbNames checker ∨ dbName ∈ allowDbNames checker)
     ∧ (access.Wildcard ∈ allowDbUsers checker ∨ dbUser ∈ allowDbUsers checker))
  ∧ (access.checkAccess checker dbName dbUser = None →
     access.run checker dbName dbUser queries
     = (None, access.Connect dbName dbUser :: map access.Exec queries))
  ∧ (access.checkAccess checker dbName dbUser ≠ None →
     ∃ e, access.run checker dbName dbUser queries = (Some e, [])
          ∧ IsAccessDenied e = true
          ∧ e = AccessDeniedError "access to database denied").
Proof.
  unfold access.run, access.checkAccess.
  rewrite <- !matchesAllowList_spec.
  destruct (access.matchesAllowList (allowDbNames checker) dbName);
    destruct (access.matchesAllowList (allowDbUsers checker) dbUser); cbn.
  all: split; [intuition congruence|].
  all: split; [intros H; try done | intros H; try done; eauto].
Qed.

Lemma engine_access_granted_iff_witness :
  access.checkAccess {| allowDbNames := ["metrics"]; allowDbUsers := ["alice"] |}
                     "metrics" "alice" = None
  ∧ access.run {| allowDbNames := ["metrics"]; allowDbUsers := ["alice"] |}
               "metrics" "alice" ["select 1"]
    = (None, [access.Connect "metrics" "alice"; access.Exec "select 1"])
  ∧ access.checkAccess {| allowDbNames := ["metrics"]; allowDbUsers := ["alice"] |}
                       "postgres" "postgres" ≠ None
  ∧ ∃ e, access.run {| allowDbNames := ["metrics"]; allowDbUsers := ["alice"] |}
                    "postgres" "postgres" ["select 1"] = (Some e, [])
         ∧ IsAccessDenied e = true.
Proof.
  assert (H1 : access.checkAccess
                 {| allowDbNames := ["metrics"]; allowDbUsers := ["alice"] |}
                 "metrics" "alice" = None) by reflexivity.
  assert (H2 : access.checkAccess
                 {| allowDbNames := ["metrics"]; allowDbUsers := ["alice"] |}
                 "postgres" "postgres" ≠ None) by (vm_compute; discriminate).
  split; [exact H1|]. split.
  - exact (proj1 (proj2 (engine_access_granted_iff _ _ _ ["select 1"])) H1).
  - split; [exact H2|].
    destruct (proj2 (proj2 (engine_access_granted_iff _ _ _ ["select 1"])) H2)
      as (e & Hrun & Hdenied & _).
    by exists e.
Defined.

(** * Further properties of the package *)

Set Warnings "-clear-no-such-hyp".

(** ** Validation only fills in defaults *)

Lemma CheckAndSetDefaults_frame (W : World) (c : Config) :
  let c' := (CheckAndSetDefaults W c).1 in
  DataDir c' = DataDir c ∧ AuthClient c' = AuthClient c
  ∧ AccessPoint c' = AccessPoint c ∧ StreamEmitter c' = StreamEmitter c
  ∧ TLSConfig c' = TLSConfig c ∧ CipherSuites c' = CipherSuites c
  ∧ Authorizer c' = Authorizer c ∧ GetRotation c' = GetRotation c
  ∧ Servers c' = Servers c ∧ OnHeartbeat c' = OnHeartbeat c
  ∧ Clock c' = Some (default (NewRealClock W) (Clock c))
  ∧ (Credentials c = None ∨ Credentials c' = Credentials c).
Proof.
  destruct c as [clock dd ac ap se tls cs az gr sv cr oh].
  unfold CheckAndSetDefaults.
  destruct clock as [clock|]; cbn [Clock setClock DataDir AuthClient AccessPoint
    StreamEmitter TLSConfig CipherSuites Authorizer GetRotation Servers
    Credentials OnHeartbeat].
  all: destruct (String.eqb dd ""); [cbn; destruct cr; naive_solver|].
  all: destruct ac as [ac|]; cbn [isNil]; [|cbn; destruct cr; naive_solver].
  all: destruct ap as [ap|]; cbn [isNil]; [|cbn; destruct cr; naive_solver].
  all: destruct se as [se|]; cbn [isNil]; [|cbn; destruct cr; naive_solver].
  all: destruct tls as [tls|]; cbn [isNil]; [|cbn; destruct cr; naive_solver].
  all: destruct (Z.of_nat (length cs) =? 0)%Z; [cbn; destruct cr; naive_solver|].
  all: destruct az as [az|]; cbn [isNil]; [|cbn; destruct cr; naive_solver].
  all: destruct gr as [gr|]; cbn [isNil]; [|cbn; destruct cr; naive_solver].
  all: destruct (Z.of_nat (length sv) =? 0)%Z; [cbn; destruct cr; naive_solver|].
  all: destruct oh as [oh|]; cbn [isNil]; [|cbn; destruct cr; naive_solver].
  all: destruct cr as [cr|]; [cbn; naive_solver|].
  all: destruct (NewSessionWithOptions W); cbn; naive_solver.
Qed.

Lemma Config_eq (c1 c2 : Config) :
  Clock c1 = Clock c2 → DataDir c1 = DataDir c2 →
  AuthClient c1 = AuthClient c2 → AccessPoint c1 = AccessPoint c2 →
  StreamEmitter c1 = StreamEmitter c2 → TLSConfig c1 = TLSConfig c2 →
  CipherSuites c1 = CipherSuites c2 → Authorizer c1 = Authorizer c2 →
  GetRotation c1 = GetRotation c2 → Servers c1 = Servers c2 →
  Credentials c1 = Credentials c2 → OnHeartbeat c1 = OnHeartbeat c2 →
  c1 = c2.
Proof. destruct c1, c2; cbn; intros; by subst. Qed.

Lemma CheckAndSetDefaults_valid (W : World) (c : Config) :
  (CheckAndSetDefaults W c).2 = None →
  ¬ mandatoryUnset c ∧ ∃ k, Credentials (CheckAndSetDefaults W c).1 = Some k.
Proof.
  intros Hok. destruct (CheckAndSetDefaults_cases W c) as [Hunset Hset].
  assert (Hm : ¬ mandatoryUnset c).
  { intros Hm. destruct (Hunset Hm) as (message & _ & Herr). congruence. }
  split; [exact Hm|].
  destruct (Hset Hm) as [_ Hcr].
  destruct (Credentials c) as [k|]; [destruct Hcr; eauto|].
  destruct (NewSessionWithOptions W); [destruct Hcr; eauto | congruence].
Qed.

(** X1.  Validation never alters a field it checks: whatever it returns,
    the ten mandatory fields are as before; the clock is set afterwards in
    every case (the given one, else the real clock), the error cases
    included; a credential provider that was given is kept. *)
Theorem CheckAndSetDefaults_only_fills_defaults (W : World) (c : Config) :
  DataDir (CheckAndSetDefaults W c).1 = DataDir c
  ∧ AuthClient (CheckAndSetDefaults W c).1 = AuthClient c
  ∧ AccessPoint (CheckAndSetDefaults W c).1 = AccessPoint c
  ∧ StreamEmitter (CheckAndSetDefaults W c).1 = StreamEmitter c
  ∧ TLSConfig (CheckAndSetDefaults W c).1 = TLSConfig c
  ∧ CipherSuites (CheckAndSetDefaults W c).1 = CipherSuites c
  ∧ Authorizer (CheckAndSetDefaults W c).1 = Authorizer c
  ∧ GetRotation (CheckAndSetDefaults W c).1 = GetRotation c
  ∧ Servers (CheckAndSetDefaults W c).1 = Servers c
  ∧ OnHeartbeat (CheckAndSetDefaults W c).1 = OnHeartbeat c
  ∧ Clock (CheckAndSetDefaults W c).1
    = Some (default (NewRealClock W) (Clock c))
  ∧ (Credentials c = None
     ∨ Credentials (CheckAndSetDefaults W c).1 = Credentials c).
Proof. exact (CheckAndSetDefaults_frame W c). Qed.

(** X2.  Validation is idempotent: a configuration that has passed
    validation passes it again and is left unchanged by the second run, which
    does not depend on the credential discovery any more. *)
Theorem CheckAndSetDefaults_idempotent (W W' : World) (c : Config) :
  (CheckAndSetDefaults W c).2 = None →
  CheckAndSetDefaults W' (CheckAndSetDefaults W c).1
  = ((CheckAndSetDefaults W c).1, None).
Proof.
  intros Hok.
  destruct (CheckAndSetDefaults_valid W c Hok) as (Hm & k & Hk).
  pose proof (CheckAndSetDefaults_frame W c) as Hf. cbn zeta in Hf.
  destruct Hf as (F1 & F2 & F3 & F4 & F5 & F6 & F7 & F8 & F9 & F10 & Fclk & _).
  set (c' := (CheckAndSetDefaults W c).1) in *.
  assert (Hm' : ¬ mandatoryUnset c').
  { unfold mandatoryUnset in *. by rewrite F1, F2, F3, F4, F5, F6, F7, F8, F9, F10. }
  destruct (CheckAndSetDefaults_cases W' c') as [_ Hset].
  destruct (Hset Hm') as [Hclk Hcr]. rewrite Hk in Hcr. destruct Hcr as [Herr Hcr].
  pose proof (CheckAndSetDefaults_frame W' c') as Hf'. cbn zeta in Hf'.
  destruct Hf' as (G1 & G2 & G3 & G4 & G5 & G6 & G7 & G8 & G9 & G10 & _ & _).
  rewrite (surjective_pairing (CheckAndSetDefaults W' c')), Herr. f_equal.
  apply Config_eq; try done.
  - rewrite Hclk, Fclk. done.
  - by rewrite Hcr.
Qed.

Lemma CheckAndSetDefaults_idempotent_witness :
  (CheckAndSetDefaults examples.world examples.cfgDefaults).2 = None
  ∧ CheckAndSetDefaults examples.failingWorld
      (CheckAndSetDefaults examples.world examples.cfgDefaults).1
    = ((CheckAndSetDefaults examples.world examples.cfgDefaults).1, None).
Proof.
  assert (H : (CheckAndSetDefaults examples.world examples.cfgDefaults).2 = None)
    by reflexivity.
  split; [exact H|].
  exact (CheckAndSetDefaults_idempotent examples.world examples.failingWorld _ H).
Defined.

(** ** The heartbeat tick *)

Lemma withLabels_identity (s : Server) (server : DatabaseServer) :
  Name (withLabels s server) = Name server
  ∧ DatabaseName (withLabels s server) = DatabaseName server
  ∧ Protocol (withLabels s server) = Protocol server
  ∧ URI (withLabels s server) = URI server
  ∧ ServerRotation (withLabels s server) = ServerRotation server.
Proof. unfold withLabels. by destruct (dynamicLabels s !! Name server). Qed.

(** X3.  Whenever a tick returns, its error is nil, the descriptor keeps
    its name, database name, protocol and URI, its dynamic labels are those
    of its label worker (its own when it has no worker), and its expiry is
    the clock reading plus the announce TTL.  The tick makes no call except
    for one warning when the rotation getter fails, and then the rotation
    of the descriptor is the one it had. *)
Theorem getServerInfoFunc_postcondition (W : World) (s : Server)
    (server d : DatabaseServer) (err : option error) (t : list event) :
  getServerInfoFunc W s server = (Returns (d, err), t) →
  err = None
  ∧ Name d = Name server ∧ DatabaseName d = DatabaseName server
  ∧ Protocol d = Protocol server ∧ URI d = URI server
  ∧ DynamicLabels d
    = match dynamicLabels s !! Name server with
      | Some labels => Get labels
      | None => DynamicLabels server
      end
  ∧ (∃ clock, Clock (config s) = Some clock
              ∧ ServerExpires d = Some (Now clock + ServerAnnounceTTL W))
  ∧ (t = []
     ∨ t = [EvLog WarnLevel "Failed to get rotation state."]
       ∧ ServerRotation d = ServerRotation server).
Proof.
  unfold getServerInfoFunc.
  destruct (GetRotation (config s)) as [getRotation|]; [|discriminate].
  destruct (getRotation (RoleDatabase W)) as [rotation e].
  destruct (Clock (config s)) as [clock|] eqn:Hclock.
  - destruct e as [e|]; [destruct (IsNotFound e)|]; cbn;
      destruct rotation as [r|]; cbn; try discriminate.
    all: intros [= <- <- <-]; cbn.
    all: destruct (dynamicLabels s !! Name server); cbn; naive_solver.
  - destruct e as [e|]; [destruct (IsNotFound e)|]; cbn;
      destruct rotation as [r|]; cbn; discriminate.
Qed.

Lemma getServerInfoFunc_postcondition_witness :
  getServerInfoFunc examples.world examples.server examples.testDb
  = (Returns (SetTTL (SetRotation examples.testDb examples.standby)
                     {| Now := 1000 |} 600, None), [])
  ∧ ServerExpires (SetTTL (SetRotation examples.testDb examples.standby)
                          {| Now := 1000 |} 600) = Some 1600.
Proof.
  assert (H : getServerInfoFunc examples.world examples.server examples.testDb
              = (Returns (SetTTL (SetRotation examples.testDb examples.standby)
                                 {| Now := 1000 |} 600, None), []))
    by (vm_compute; reflexivity).
  split; [exact H|].
  destruct (getServerInfoFunc_postcondition _ _ _ _ _ _ H)
    as (_ & _ & _ & _ & _ & _ & (clock & Hclock & Hexp) & _).
  rewrite Hexp. vm_compute in Hclock. by injection Hclock as <-.
Defined.

(** X4.  A tick is idempotent: applied to the descriptor it has just
    returned, with the label worker, the rotation getter and the clock
    unchanged, it returns the same descriptor and makes the same calls. *)
Theorem getServerInfoFunc_idempotent (W : World) (s : Server)
    (server d : DatabaseServer) (err : option error) (t : list event) :
  getServerInfoFunc W s server = (Returns (d, err), t) →
  getServerInfoFunc W s d = (Returns (d, err), t).
Proof.
  unfold getServerInfoFunc.
  destruct (GetRotation (config s)) as [getRotation|]; [|discriminate].
  destruct (getRotation (RoleDatabase W)) as [rotation e].
  destruct (dynamicLabels s !! Name server) as [labels|] eqn:Hlabels.
  all: destruct (Clock (config s)) as [clock|].
  all: destruct e as [e|]; [destruct (IsNotFound e)|]; cbn;
    destruct rotation as [r|]; cbn; try discriminate.
  all: intros [= <- <- <-]; cbn; by rewrite Hlabels.
Qed.

Lemma getServerInfoFunc_idempotent_witness :
  getServerInfoFunc examples.world examples.server examples.testDb
  = (Returns (SetTTL (SetRotation examples.testDb examples.standby)
                     {| Now := 1000 |} 600, None), [])
  ∧ getServerInfoFunc examples.world examples.server
      (SetTTL (SetRotation examples.testDb examples.standby) {| Now := 1000 |} 600)
    = (Returns (SetTTL (SetRotation examples.testDb examples.standby)
                       {| Now := 1000 |} 600, None), []).
Proof.
  assert (H : getServerInfoFunc examples.world examples.server examples.testDb
              = (Returns (SetTTL (SetRotation examples.testDb examples.standby)
                                 {| Now := 1000 |} 600, None), []))
    by (vm_compute; reflexivity).
  split; [exact H|].
  exact (getServerInfoFunc_idempotent _ _ _ _ _ _ H).
Defined.

(** X5.  A tick panics only for want of a value it dereferences: the
    rotation getter itself, the clock, or the rotation when the getter
    returns nil for it without an error other than not-found.  With a
    getter, a clock and a getter result that is a rotation or such an
    error, the tick returns. *)
Theorem getServerInfoFunc_returns_iff (W : World) (s : Server)
    (server : DatabaseServer) :
  (∃ r, outcome_of (getServerInfoFunc W s server) = Returns r)
  ↔ ∃ getRotation clock,
      GetRotation (config s) = Some getRotation
      ∧ Clock (config s) = Some clock
      ∧ ((∃ r, (getRotation (RoleDatabase W)).1 = Some r)
         ∨ ∃ e, (getRotation (RoleDatabase W)).2 = Some e ∧ IsNotFound e = false).
Proof.
  unfold getServerInfoFunc. split.
  - intros [r' Hr'].
    destruct (GetRotation (config s)) as [getRotation|]; [|discriminate].
    destruct (getRotation (RoleDatabase W)) as [rotation e] eqn:Hget.
    destruct (Clock (config s)) as [clock|].
    + exists getRotation, clock. split; [done|]. split; [done|].
      rewrite Hget. cbn [fst snd].
      destruct rotation as [r|]; [left; eauto|]. right.
      destruct e as [e|]; [|discriminate].
      destruct (IsNotFound e) eqn:Hnf; [discriminate|]. eauto.
    + destruct e as [e|]; [destruct (IsNotFound e)|];
        destruct rotation as [r|]; discriminate.
  - intros (getRotation & clock & -> & -> & Hcase).
    destruct (getRotation (RoleDatabase W)) as [rotation e].
    cbn [fst snd] in Hcase.
    destruct Hcase as [[r ->] | (e0 & -> & Hnf)].
    + destruct e as [e|]; [destruct (IsNotFound e)|]; cbn; eauto.
    + rewrite Hnf. cbn. eauto.
Qed.

(** ** Service resolution and the session *)

(** X6.  Among several configured descriptors carrying the requested
    database name, the lookup of [authorize] selects the last one: the loop
    does not stop at the first match. *)
Theorem findServer_last_match (before after : list DatabaseServer)
    (d : DatabaseServer) (serviceName : string) :
  DatabaseName d = serviceName →
  (∀ d', d' ∈ after → DatabaseName d' ≠ serviceName) →
  findServer (before ++ d :: after) serviceName = Some d.
Proof.
  intros Hname. induction after as [|d' after IH] using rev_ind; intros Hafter.
  - rewrite findServer_app. by rewrite (proj2 (String.eqb_eq _ _) Hname).
  - rewrite app_comm_cons, app_assoc, findServer_app.
    destruct (String.eqb_spec (DatabaseName d') serviceName) as [Heq|Hne].
    + exfalso. apply (Hafter d'); [apply elem_of_app; right; left | done].
    + apply IH. intros d'' Hd''. apply Hafter, elem_of_app. by left.
Qed.

Lemma findServer_last_match_witness :
  DatabaseName examples.testDbReplica = "test"
  ∧ (∀ d', d' ∈ [examples.mysqlDb] → DatabaseName d' ≠ "test")
  ∧ findServer [examples.testDb; examples.testDbReplica; examples.mysqlDb] "test"
    = Some examples.testDbReplica.
Proof.
  assert (H1 : DatabaseName examples.testDbReplica = "test") by reflexivity.
  assert (H2 : ∀ d', d' ∈ [examples.mysqlDb] → DatabaseName d' ≠ "test").
  { intros d' Hd'. apply list_elem_of_singleton in Hd' as ->.
    vm_compute. discriminate. }
  split; [exact H1|]. split; [exact H2|].
  exact (findServer_last_match [examples.testDb] [examples.mysqlDb] _ _ H1 H2).
Defined.

(** X7.  A session returned by [authorize] is built from what the
    authorizer answered, consulted once: it carries the identity and the
    checker of that answer, a fresh id, a configured descriptor whose
    database name is the service name of the identity, and the server's
    logger extended with the id and that database name. *)
Theorem authorize_session (W : World) (s : Server) (ctx : context)
    (sessionCtx : session.Context) (t : list event) :
  authorize W s ctx = (Returns (Ok sessionCtx), t) →
  ∃ authz authContext d,
    Authorizer (config s) = Some authz
    ∧ authz ctx = Ok authContext
    ∧ session.Identity sessionCtx = AuthIdentity authContext
    ∧ session.Checker sessionCtx = AuthChecker authContext
    ∧ session.ID sessionCtx = uuidNew W
    ∧ session.Server sessionCtx = Some d
    ∧ d ∈ Servers (config s)
    ∧ DatabaseName d = ServiceName (Route (AuthIdentity authContext))
    ∧ session.Log sessionCtx
      = (Entry s ++ [("id", uuidNew W); ("db", DatabaseName d)])%list
    ∧ t = [EvAuthorize ctx; EvLog DebugLevel "Client identity: %#v.";
           EvLog DebugLevel "Will connect to database %q at %v.";
           EvSessionContext (uuidNew W)].
Proof.
  unfold authorize.
  destruct (Value ctx ContextUser) as [[identity|identity|role|role|addr]|];
    try discriminate.
  all: destruct (Authorizer (config s)) as [authz|]; [|discriminate].
  all: cbn; destruct (authz ctx) as [authContext|err] eqn:Hauthz; [|discriminate].
  all: destruct (findServer _ _) as [d|] eqn:Hfind; [|discriminate].
  all: cbn; intros [= <- <-]; cbn.
  all: apply findServer_Some in Hfind as [Hin Hname].
  all: exists authz, authContext, d; by repeat split.
Qed.

Lemma authorize_session_witness :
  authorize examples.world examples.server examples.aliceCtx
  = (Returns (Ok examples.aliceSession), examples.aliceTrace)
  ∧ ∃ d, session.Server examples.aliceSession = Some d
         ∧ d ∈ Servers (config examples.server)
         ∧ DatabaseName d = "test".
Proof.
  assert (H : authorize examples.world examples.server examples.aliceCtx
              = (Returns (Ok examples.aliceSession), examples.aliceTrace))
    by (vm_compute; reflexivity).
  split; [exact H|].
  destruct (authorize_session _ _ _ _ _ H)
    as (authz & authContext & d & Ha & Hok & Hid & _ & _ & Hd & Hin & Hname & _).
  exists d. split; [done|]. split; [done|].
  rewrite Hname, <- Hid. reflexivity.
Defined.

(** X8.  After [authorize] has returned a session, [dispatch] does not
    panic: the descriptor of the session is never nil, so the outcome is
    the postgres engine or the error for an unsupported protocol. *)
Theorem dispatch_after_authorize (W : World) (s : Server) (ctx : context)
    (sessionCtx : session.Context) (t : list event) (streamWriter : StreamWriter) :
  authorize W s ctx = (Returns (Ok sessionCtx), t) →
  ∃ d, session.Server sessionCtx = Some d
       ∧ ((Protocol d = ProtocolPostgres
           ∧ ∃ engine, dispatch s sessionCtx streamWriter = (Returns (Ok engine), []))
          ∨ (Protocol d ≠ ProtocolPostgres
             ∧ dispatch s sessionCtx streamWriter
               = (Returns (Err (BadParameterError
                                  "unsupported database procotol %q"
                                  [Protocol d])), []))).
Proof.
  intros Hauth.
  destruct (authorize_session_target W s ctx sessionCtx t Hauth)
    as (d & Hd & _ & _).
  exists d. split; [done|]. unfold dispatch. rewrite Hd.
  destruct (String.eqb_spec (Protocol d) ProtocolPostgres) as [Heq|Hne];
    [left | right]; eauto.
Qed.

Lemma dispatch_after_authorize_witness :
  authorize examples.world examples.server examples.carolCtx
  = (Returns (Ok examples.carolSession), examples.carolTrace)
  ∧ dispatch examples.server examples.carolSession examples.writer
    = (Returns (Err (BadParameterError "unsupported database procotol %q"
                                       ["mysql"])), []).
Proof.
  assert (H : authorize examples.world examples.server examples.carolCtx
              = (Returns (Ok examples.carolSession), examples.carolTrace))
    by (vm_compute; reflexivity).
  split; [exact H|].
  destruct (dispatch_after_authorize _ _ _ _ _ examples.writer H)
    as (d & Hd & [[Hpg _] | [_ Hdispatch]]).
  - exfalso. injection Hd as <-. vm_compute in Hpg. discriminate Hpg.
  - injection Hd as <-. exact Hdispatch.
Defined.

(** ** The paths through handleConnection *)

Lemma closedConns_app (t1 t2 : list event) :
  closedConns (t1 ++ t2) = (closedConns t1 ++ closedConns t2)%list.
Proof.
  induction t1 as [|e t1 IH]; [done|].
  destruct e; cbn; by rewrite ?IH.
Qed.

(** The calls [authorize] can have made when it is left. *)
Lemma authorize_traces (W : World) (s : Server) (ctx : context) :
  trace_of (authorize W s ctx) = []
  ∨ trace_of (authorize W s ctx) = [EvAuthorize ctx]
  ∨ trace_of (authorize W s ctx)
    = [EvAuthorize ctx; EvLog DebugLevel "Client identity: %#v."]
  ∨ trace_of (authorize W s ctx)
    = [EvAuthorize ctx; EvLog DebugLevel "Client identity: %#v.";
       EvLog DebugLevel "Will connect to database %q at %v.";
       EvSessionContext (uuidNew W)].
Proof.
  unfold authorize.
  destruct (Value ctx ContextUser) as [[identity|identity|role|role|addr]|];
    try (by left).
  all: destruct (Authorizer (config s)) as [authz|]; [|by left].
  all: cbn; destruct (authz ctx) as [authContext|err]; [|by right; left].
  all: destruct (findServer _ _); [by right; right; right | by right; right; left].
Qed.

Lemma authorize_no_close_no_engine (W : World) (s : Server) (ctx : context) :
  closedConns (trace_of (authorize W s ctx)) = []
  ∧ ∀ e, e ∈ trace_of (authorize W s ctx) → isEngineCall e = false.
Proof.
  destruct (authorize_traces W s ctx) as [-> | [-> | [-> | ->]]];
    (split; [done|]); intros e He; each_member He.
Qed.

Lemma runEngine_trace (W : World) (engine : DatabaseEngine) (ctx : context)
    (sessionCtx : session.Context) (conn : Conn) :
  trace_of (runEngine W engine ctx sessionCtx conn)
  = EvEngineHandleConnection ctx conn
    :: map (λ k, EvAudit (closureOf engine k))
           (EngineHandleConnection W engine ctx sessionCtx conn).2
  ∧ outcome_of (runEngine W engine ctx sessionCtx conn)
    = (EngineHandleConnection W engine ctx sessionCtx conn).1.
Proof.
  unfold runEngine.
  by destruct (EngineHandleConnection W engine ctx sessionCtx conn).
Qed.

Lemma runEngine_no_close (W : World) (engine : DatabaseEngine) (ctx : context)
    (sessionCtx : session.Context) (conn : Conn) :
  closedConns (trace_of (runEngine W engine ctx sessionCtx conn)) = [].
Proof.
  rewrite (proj1 (runEngine_trace W engine ctx sessionCtx conn)). cbn.
  by induction (EngineHandleConnection W engine ctx sessionCtx conn).2.
Qed.

Lemma handleConnection_streaming (W : World) (s : Server) (ctx : context)
    (conn : Conn) (sessionCtx : session.Context) (t : list event)
    (streamWriter : StreamWriter) :
  authorize W s ctx = (Returns (Ok sessionCtx), t) →
  newStreamWriter W sessionCtx = Ok streamWriter →
  handleConnection W s ctx conn
  = ((streamingOutcome W s ctx conn sessionCtx streamWriter).1,
     (t ++ EvNewStreamWriter (session.ID sessionCtx)
        :: (streamingOutcome W s ctx conn sessionCtx streamWriter).2
        ++ [EvGo (GoStreamWriterClose streamWriter (closeContext s)
                                      (session.Log sessionCtx))])%list).
Proof.
  intros Hauth Hnew. unfold handleConnection, streamingOutcome.
  rewrite Hauth. cbn [mbind M_bind]. rewrite Hnew. unfold defer.
  pose proof (dispatch_trace s sessionCtx streamWriter) as Hd.
  destruct (dispatch s sessionCtx streamWriter) as [[[engine|e]|p] td];
    cbn in Hd; subst td; [|done..].
  cbn -[runEngine].
  destruct (runEngine W engine ctx sessionCtx conn) as [[[e|]|p] te];
    cbn; by rewrite ?app_nil_r.
Qed.

Lemma handleConnection_no_writer (W : World) (s : Server) (ctx : context)
    (conn : Conn) (sessionCtx : session.Context) (t : list event) (e : error) :
  authorize W s ctx = (Returns (Ok sessionCtx), t) →
  newStreamWriter W sessionCtx = Err e →
  handleConnection W s ctx conn
  = (Returns (Some (Wrap e)),
     (t ++ [EvNewStreamWriter (session.ID sessionCtx)])%list).
Proof.
  intros Hauth Hnew. unfold handleConnection.
  rewrite Hauth. cbn [mbind M_bind]. by rewrite Hnew.
Qed.

Lemma handleConnection_unauthorized (W : World) (s : Server) (ctx : context)
    (conn : Conn) :
  (∀ sessionCtx, outcome_of (authorize W s ctx) ≠ Returns (Ok sessionCtx)) →
  trace_of (handleConnection W s ctx conn) = trace_of (authorize W s ctx)
  ∧ outcome_of (handleConnection W s ctx conn)
    = match outcome_of (authorize W s ctx) with
      | Returns (Err e) => Returns (Some (Wrap e))
      | Returns (Ok _) => Returns None
      | Panics p => Panics p
      end.
Proof.
  intros Hno. unfold handleConnection.
  destruct (authorize W s ctx) as [[[sc|e]|p] t]; cbn.
  - by destruct (Hno sc).
  - by rewrite app_nil_r.
  - done.
Qed.

Lemma dispatch_after_authorize_total (s : Server) (sessionCtx : session.Context)
    (streamWriter : StreamWriter) :
  (∃ d, session.Server sessionCtx = Some d ∧ d ∈ Servers (config s)
        ∧ DatabaseName d
          = ServiceName (Route (session.Identity sessionCtx))) →
  (∃ engine, dispatch s sessionCtx streamWriter = (Returns (Ok engine), []))
  ∨ (∃ e, dispatch s sessionCtx streamWriter = (Returns (Err e), [])).
Proof.
  intros (d & Hd & _). unfold dispatch. rewrite Hd.
  destruct (String.eqb (Protocol d) ProtocolPostgres); eauto.
Qed.

(** X9.  [handleConnection] starts the closer of a stream writer exactly
    when a stream writer came to exist, that is when [authorize] returned a
    session and [newStreamWriter] succeeded for it; on every other path it
    starts no goroutine at all. *)
Theorem handleConnection_closer_iff (W : World) (s : Server) (ctx : context)
    (conn : Conn) :
  started (trace_of (handleConnection W s ctx conn)) ≠ []
  ↔ ∃ sessionCtx streamWriter,
      outcome_of (authorize W s ctx) = Returns (Ok sessionCtx)
      ∧ newStreamWriter W sessionCtx = Ok streamWriter.
Proof.
  destruct (authorize_quiet W s ctx) as [Hquiet _].
  destruct (authorize W s ctx) as [[[sc|e]|p] t] eqn:Hauth;
    cbn [trace_of outcome_of fst snd] in *.
  - destruct (newStreamWriter W sc) as [w|e] eqn:Hnew.
    + split; [intros _; eauto|]. intros _.
      rewrite (handleConnection_streaming W s ctx conn sc t w Hauth Hnew).
      cbn [trace_of snd].
      rewrite started_app, Hquiet. cbn [started app].
      rewrite started_app. cbn. by intros [_ H]%app_eq_nil.
    + rewrite (handleConnection_no_writer W s ctx conn sc t e Hauth Hnew).
      cbn [trace_of snd]. rewrite started_app, Hquiet. cbn.
      split; [done|]. intros (sc' & w & [= <-] & Hw). congruence.
  - destruct (handleConnection_unauthorized W s ctx conn) as [-> _];
      rewrite Hauth; cbn; [done|]. rewrite Hquiet.
    split; [done|]. by intros (sc' & w & Hsc & _).
  - destruct (handleConnection_unauthorized W s ctx conn) as [-> _];
      rewrite Hauth; cbn; [done|]. rewrite Hquiet.
    split; [done|]. by intros (sc' & w & Hsc & _).
Qed.

(** X10.  An engine call or an audit emission is among the calls of
    [handleConnection] exactly when [authorize] returned a session, its
    stream writer was created and its descriptor speaks postgres: on no
    other path is an engine run or an audit event emitted. *)
Theorem handleConnection_engine_iff (W : World) (s : Server) (ctx : context)
    (conn : Conn) :
  (∃ e, e ∈ trace_of (handleConnection W s ctx conn) ∧ isEngineCall e = true)
  ↔ ∃ sessionCtx streamWriter d,
      outcome_of (authorize W s ctx) = Returns (Ok sessionCtx)
      ∧ newStreamWriter W sessionCtx = Ok streamWriter
      ∧ session.Server sessionCtx = Some d
      ∧ Protocol d = ProtocolPostgres.
Proof.
  destruct (authorize_no_close_no_engine W s ctx) as [_ Hnone].
  destruct (authorize W s ctx) as [[[sc|e]|p] t] eqn:Hauth;
    cbn [trace_of outcome_of fst snd] in *.
  - destruct (newStreamWriter W sc) as [w|e] eqn:Hnew.
    + rewrite (handleConnection_streaming W s ctx conn sc t w Hauth Hnew).
      cbn [trace_of snd]. unfold streamingOutcome, dispatch.
      destruct (authorize_session_target W s ctx sc t Hauth) as (d & Hd & _).
      rewrite Hd.
      destruct (String.eqb_spec (Protocol d) ProtocolPostgres) as [Heq|Hne];
        cbn [fst snd mret M_ret].
      * split; [intros _; eauto 10|]. intros _.
        exists (EvEngineHandleConnection ctx conn). split; [|done].
        rewrite (proj1 (runEngine_trace _ _ _ _ _)). set_solver.
      * split.
        -- intros (e & He & Hcall). exfalso.
           apply elem_of_app in He as [He|He];
             [by rewrite (Hnone e He) in Hcall|].
           cbn in He. each_member He.
        -- intros (sc' & w' & d' & [= <-] & _ & Hd' & Hpg). congruence.
    + rewrite (handleConnection_no_writer W s ctx conn sc t e Hauth Hnew).
      cbn [trace_of snd]. split.
      * intros (e' & He & Hcall). exfalso.
        apply elem_of_app in He as [He|He];
          [by rewrite (Hnone e' He) in Hcall|]. each_member He.
      * intros (sc' & w' & d' & [= <-] & Hw & _). congruence.
  - destruct (handleConnection_unauthorized W s ctx conn) as [-> _];
      rewrite Hauth; cbn; [done|]. split.
    + intros (e' & He & Hcall). by rewrite (Hnone e' He) in Hcall.
    + by intros (sc' & w' & d' & Hsc & _).
  - destruct (handleConnection_unauthorized W s ctx conn) as [-> _];
      rewrite Hauth; cbn; [done|]. split.
    + intros (e' & He & Hcall). by rewrite (Hnone e' He) in Hcall.
    + by intros (sc' & w' & d' & Hsc & _).
Qed.

(** X11.  A session whose descriptor names another protocol than postgres
    is refused after its stream writer was created: [handleConnection]
    returns the wrapped BadParameter error naming the protocol, and its
    calls are those of [authorize], the creation of the writer and the
    start of its closer. *)
Theorem handleConnection_unsupported_protocol (W : World) (s : Server)
    (ctx : context) (conn : Conn) (sessionCtx : session.Context)
    (t : list event) (streamWriter : StreamWriter) (d : DatabaseServer) :
  authorize W s ctx = (Returns (Ok sessionCtx), t) →
  newStreamWriter W sessionCtx = Ok streamWriter →
  session.Server sessionCtx = Some d →
  Protocol d ≠ ProtocolPostgres →
  handleConnection W s ctx conn
  = (Returns (Some (Wrap (BadParameterError "unsupported database procotol %q"
                                            [Protocol d]))),
     (t ++ [EvNewStreamWriter (session.ID sessionCtx);
            EvGo (GoStreamWriterClose streamWriter (closeContext s)
                                      (session.Log sessionCtx))])%list).
Proof.
  intros Hauth Hnew Hd Hne.
  rewrite (handleConnection_streaming W s ctx conn _ t _ Hauth Hnew).
  unfold streamingOutcome, dispatch. rewrite Hd.
  by destruct (String.eqb_spec (Protocol d) ProtocolPostgres).
Qed.

Lemma handleConnection_unsupported_protocol_witness :
  authorize examples.world examples.server examples.carolCtx
  = (Returns (Ok examples.carolSession), examples.carolTrace)
  ∧ Protocol examples.mysqlDb ≠ ProtocolPostgres
  ∧ outcome_of (handleConnection examples.world examples.server
                  examples.carolCtx examples.conn)
    = Returns (Some (Wrap (BadParameterError "unsupported database procotol %q"
                                             ["mysql"]))).
Proof.
  assert (H1 : authorize examples.world examples.server examples.carolCtx
               = (Returns (Ok examples.carolSession), examples.carolTrace))
    by (vm_compute; reflexivity).
  assert (H2 : newStreamWriter examples.world examples.carolSession
               = Ok {| stream := uuidNew examples.world |}) by reflexivity.
  assert (H3 : session.Server examples.carolSession = Some examples.mysqlDb)
    by reflexivity.
  assert (H4 : Protocol examples.mysqlDb ≠ ProtocolPostgres)
    by (vm_compute; discriminate).
  split; [exact H1|]. split; [exact H4|].
  by rewrite (handleConnection_unsupported_protocol _ _ _ examples.conn
                _ _ _ _ H1 H2 H3 H4).
Defined.



(** ** The connection is always closed *)

Lemma handleConnection_no_close (W : World) (s : Server) (ctx : context)
    (conn : Conn) :
  closedConns (trace_of (handleConnection W s ctx conn)) = [].
Proof.
  destruct (authorize_no_close_no_engine W s ctx) as [Hnone _].
  destruct (authorize W s ctx) as [[[sc|e]|p] t] eqn:Hauth;
    cbn [trace_of outcome_of fst snd] in *.
  - destruct (newStreamWriter W sc) as [w|e] eqn:Hnew.
    + rewrite (handleConnection_streaming W s ctx conn sc t w Hauth Hnew).
      cbn [trace_of snd]. rewrite closedConns_app, Hnone. cbn [closedConns app].
      rewrite closedConns_app. unfold streamingOutcome.
      destruct (dispatch s sc w) as [[[engine|e]|p] td]; cbn [snd];
        [|done..].
      by rewrite runEngine_no_close.
    + rewrite (handleConnection_no_writer W s ctx conn sc t e Hauth Hnew).
      cbn [trace_of snd]. by rewrite closedConns_app, Hnone.
  - destruct (handleConnection_unauthorized W s ctx conn) as [-> _];
      rewrite Hauth; cbn; done.
  - destruct (handleConnection_unauthorized W s ctx conn) as [-> _];
      rewrite Hauth; cbn; done.
Qed.

(** The three ways through [HandleConnection]. *)
Lemma HandleConnection_paths (W : World) (s : Server) (conn : Conn) :
  (∃ mid,
     HandleConnection W s conn
     = (Returns tt,
        (EvLog DebugLevel "Accepted connection." :: EvHandshake conn
         :: mid ++ [EvConnClose conn])%list)
     ∧ closedConns mid = [])
  ∨ (∃ ctx p mid,
       Handshake W (TLSConfig (config s)) conn = None
       ∧ WrapContext W (middleware s) Background conn = Ok ctx
       ∧ outcome_of (handleConnection W s ctx conn) = Panics p
       ∧ HandleConnection W s conn
         = (Panics p,
            (EvLog DebugLevel "Accepted connection." :: EvHandshake conn
             :: mid ++ [EvConnClose conn])%list)
       ∧ closedConns mid = []).
Proof.
  unfold HandleConnection.
  destruct (Handshake W (TLSConfig (config s)) conn) as [err|] eqn:Hh.
  { left. by exists [EvLog ErrorLevel "Failed to perform TLS handshake."]. }
  destruct (WrapContext W (middleware s) Background conn) as [ctx|err] eqn:Hw.
  2:{ left. by exists [EvWrapContext conn;
                       EvLog ErrorLevel
                         "Failed to extract identity from connection."]. }
  pose proof (handleConnection_no_close W s ctx conn) as Hnone.
  destruct (handleConnection W s ctx conn) as [[[e|]|p] t] eqn:Hhandle;
    cbn [trace_of snd] in Hnone; cbn.
  - left. exists (EvWrapContext conn
                  :: t ++ [EvLog ErrorLevel "Failed to handle connection."])%list.
    split; [done|].
    cbn. by rewrite closedConns_app, Hnone.
  - left. exists (EvWrapContext conn :: t).
    split; [first [done | by rewrite ?app_nil_r]|].
    done.
  - right. exists ctx, p, (EvWrapContext conn :: t). rewrite Hhandle.
    by repeat split.
Qed.

(** X13.  Whatever happens to a connection, [HandleConnection] closes it
    exactly once, and the close is the last call, also when the handling
    panics. *)
Theorem HandleConnection_closes_conn_once (W : World) (s : Server) (conn : Conn) :
  closedConns (trace_of (HandleConnection W s conn)) = [conn]
  ∧ last (trace_of (HandleConnection W s conn)) = Some (EvConnClose conn).
Proof.
  destruct (HandleConnection_paths W s conn)
    as [(mid & -> & Hmid) | (ctx & p & mid & _ & _ & _ & -> & Hmid)];
    cbn [trace_of snd closedConns].
  all: rewrite closedConns_app, Hmid; split; [done|].
  all: by rewrite !app_comm_cons, last_snoc.
Qed.

(** X14.  [HandleConnection] does not recover: it panics exactly when the
    handshake and the identity extraction succeeded and [handleConnection]
    panics, with the same panic; in every other case it returns, whatever
    error occurred. *)
Theorem HandleConnection_panics_iff (W : World) (s : Server) (conn : Conn)
    (p : panic) :
  (outcome_of (HandleConnection W s conn) = Panics p
   ↔ ∃ ctx, Handshake W (TLSConfig (config s)) conn = None
            ∧ WrapContext W (middleware s) Background conn = Ok ctx
            ∧ outcome_of (handleConnection W s ctx conn) = Panics p)
  ∧ (outcome_of (HandleConnection W s conn) = Returns tt
     ∨ ∃ p', outcome_of (HandleConnection W s conn) = Panics p').
Proof.
  unfold HandleConnection.
  destruct (Handshake W (TLSConfig (config s)) conn) as [err|] eqn:Hh.
  { cbn. split; [|by left]. split; [done|]. by intros (ctx & ? & _). }
  destruct (WrapContext W (middleware s) Background conn) as [ctx|err] eqn:Hw.
  2:{ cbn. split; [|by left]. split; [done|]. by intros (ctx & _ & ? & _). }
  destruct (handleConnection W s ctx conn) as [[[e|]|p'] t] eqn:Hhandle; cbn.
  - split; [|by left]. split; [done|].
    intros (ctx' & _ & [= <-] & Hp). rewrite Hhandle in Hp. done.
  - split; [|by left]. split; [done|].
    intros (ctx' & _ & [= <-] & Hp). rewrite Hhandle in Hp. done.
  - split; [|right; eauto]. split.
    + intros [= <-]. exists ctx. by rewrite Hhandle.
    + intros (ctx' & _ & [= <-] & Hp). rewrite Hhandle in Hp.
      cbn in Hp. by injection Hp as ->.
Qed.

(** ** What construction leaves behind *)

Lemma grows_trans (s s1 s2 : Server) (l1 l2 h1 h2 : gset string) :
  grows s s1 l1 h1 → grows s1 s2 l2 h2 → grows s s2 (l1 ∪ l2) (h1 ∪ h2).
Proof.
  intros (C1 & X1 & M1 & E1 & L1 & H1) (C2 & X2 & M2 & E2 & L2 & H2).
  repeat split; try congruence.
  - rewrite L2, L1. set_solver.
  - rewrite H2, H1. set_solver.
Qed.

Lemma initDynamicLabels_grows (W : World) (s s' : Server) (ctx : context)
    (server : DatabaseServer) :
  outcome_of (initDynamicLabels W s ctx server) = Returns (s', None) →
  grows s s' (labelNames [server]) ∅.
Proof.
  unfold initDynamicLabels, labelNames, hasDynamicLabels. cbn [List.filter].
  destruct (size (DynamicLabels server) =? 0)%nat; cbn.
  - intros [= <-]. repeat split; set_solver.
  - destruct (NewDynamic W ctx (DynamicLabels server)); cbn; [|discriminate].
    intros [= <-]. repeat split; cbn; [|set_solver].
    rewrite dom_insert_L. set_solver.
Qed.

Lemma initHeartbeat_grows (W : World) (s s' : Server) (ctx : context)
    (server : DatabaseServer) :
  outcome_of (initHeartbeat W s ctx server) = Returns (s', None) →
  grows s s' ∅ {[Name server]}.
Proof.
  unfold initHeartbeat. cbn.
  destruct (NewHeartbeat W _); cbn; [|discriminate].
  intros [= <-]. repeat split; cbn; [set_solver|].
  rewrite dom_insert_L. set_solver.
Qed.

Lemma initRDSRootCertOf_grows (W : World) (s s' : Server) (ctx : context)
    (server : DatabaseServer) :
  outcome_of (initRDSRootCertOf W s ctx server) = Returns (s', None) →
  grows s s' ∅ ∅.
Proof.
  unfold initRDSRootCertOf. cbn.
  destruct (initRDSRootCert W _ _); cbn; [|discriminate].
  intros [= <-]. repeat split; set_solver.
Qed.

Lemma initDatabaseServer_grows (W : World) (s s' : Server) (ctx : context)
    (server : DatabaseServer) :
  outcome_of (initDatabaseServer W s ctx server) = Returns (s', None) →
  grows s s' (labelNames [server]) {[Name server]}.
Proof.
  intros H. unfold initDatabaseServer in H.
  apply bind_Returns in H as ([s1 [e1|]] & H1 & H); [discriminate|].
  apply bind_Returns in H as ([s2 [e2|]] & H2 & H); [discriminate|].
  apply bind_Returns in H as ([s3 [e3|]] & H3 & H); [discriminate|].
  cbn in H. injection H as <-.
  apply initDynamicLabels_grows in H1. apply initHeartbeat_grows in H2.
  apply initRDSRootCertOf_grows in H3.
  pose proof (grows_trans _ _ _ _ _ _ _ (grows_trans _ _ _ _ _ _ _ H1 H2) H3)
    as Hg.
  by rewrite !(right_id_L ∅ (∪)), (left_id_L ∅ (∪)) in Hg.
Qed.

Lemma labelNames_cons (d : DatabaseServer) (l : list DatabaseServer) :
  labelNames (d :: l) = labelNames [d] ∪ labelNames l.
Proof.
  unfold labelNames. cbn [List.filter].
  destruct (hasDynamicLabels d); cbn; set_solver.
Qed.

Lemma initDatabaseServers_grows (W : World) (ctx : context)
    (servers : list DatabaseServer) (s s' : Server) :
  outcome_of (initDatabaseServers W s ctx servers) = Returns (s', None) →
  grows s s' (labelNames servers) (serverNames servers).
Proof.
  revert s. induction servers as [|db rest IH]; intros s H.
  - cbn in H. injection H as <-. repeat split; set_solver.
  - cbn [initDatabaseServers] in H.
    apply bind_Returns in H as ([s1 [e1|]] & H1 & H); [discriminate|].
    apply initDatabaseServer_grows in H1. apply IH in H.
    rewrite labelNames_cons. unfold serverNames. rewrite fmap_cons, list_to_set_cons.
    exact (grows_trans _ _ _ _ _ _ _ H1 H).
Qed.

Lemma New_grows (W : World) (ctx : context) (cfg : Config) (s : Server)
    (t : list event) :
  New W ctx cfg = (Returns (Ok s), t) →
  dom (heartbeats s) = serverNames (Servers cfg)
  ∧ dom (dynamicLabels s) = labelNames (Servers cfg)
  ∧ closeContext s = WithCancel ctx
  ∧ Servers (config s) = Servers cfg
  ∧ middleware s = {| MiddlewareAccessPoint := AccessPoint cfg;
                      AcceptedUsage := [UsageDatabaseOnly W] |}.
Proof.
  intros H. apply (f_equal outcome_of) in H. revert H. unfold New.
  pose proof (CheckAndSetDefaults_frame W cfg) as Hf. cbn zeta in Hf.
  destruct Hf as (_ & _ & Hap & _ & _ & _ & _ & _ & Hservers & _).
  destruct (CheckAndSetDefaults W cfg) as [cfg' [e|]]; [discriminate|].
  cbn [fst] in Hap, Hservers.
  destruct (TLSConfig cfg') as [tc|]; [|discriminate].
  intros H. apply bind_Returns in H as ([s1 [e1|]] & H1 & H); [discriminate|].
  cbn in H. injection H as <-.
  apply initDatabaseServers_grows in H1 as (C & X & M & _ & L & Hb).
  cbn in *. rewrite Hb, L, X, M, C, Hservers, Hap. cbn.
  repeat split; set_solver.
Qed.

(** X15.  A server returned by [New] has one heartbeat for each name
    occurring among the configured descriptors and one label worker for
    each name of a descriptor with dynamic labels, and no others; its close
    context is a cancellable child of the context given to [New]; its
    middleware holds the configured access point and accepts only the
    database usage. *)
Theorem New_worker_tables (W : World) (ctx : context) (cfg : Config)
    (s : Server) (t : list event) :
  New W ctx cfg = (Returns (Ok s), t) →
  (∀ name, is_Some (heartbeats s !! name)
           ↔ ∃ d, d ∈ Servers cfg ∧ Name d = name)
  ∧ (∀ name, is_Some (dynamicLabels s !! name)
             ↔ ∃ d, d ∈ Servers cfg ∧ Name d = name
                    ∧ DynamicLabels d ≠ ∅)
  ∧ closeContext s = WithCancel ctx
  ∧ Servers (config s) = Servers cfg
  ∧ middleware s = {| MiddlewareAccessPoint := AccessPoint cfg;
                      AcceptedUsage := [UsageDatabaseOnly W] |}.
Proof.
  intros H. destruct (New_grows W ctx cfg s t H) as (Hb & L & X & S & M).
  split; [|split; [|done]].
  - intros name. rewrite <- elem_of_dom, Hb. unfold serverNames.
    rewrite elem_of_list_to_set, list_elem_of_fmap. naive_solver.
  - intros name. rewrite <- elem_of_dom, L. unfold labelNames.
    rewrite elem_of_list_to_set, list_elem_of_fmap. split.
    + intros (d & -> & Hd). apply list_elem_of_In, filter_In in Hd as [Hd Hl].
      exists d. split; [by apply list_elem_of_In|]. split; [done|].
      unfold hasDynamicLabels in Hl. intros Hempty. rewrite Hempty in Hl.
      by rewrite map_size_empty in Hl.
    + intros (d & Hd & <- & Hne). exists d. split; [done|].
      apply list_elem_of_In, filter_In. split; [by apply list_elem_of_In|].
      unfold hasDynamicLabels. apply negb_true_iff, Nat.eqb_neq.
      intros Hsize. by apply map_size_empty_iff in Hsize.
Qed.

Lemma New_worker_tables_witness :
  New examples.world Background examples.cfg
  = (Returns (Ok examples.server),
     [EvNewDynamic "host-1"; EvSync "host-1"; EvNewHeartbeat "host-1";
      EvInitRDSRootCert "host-1"; EvNewHeartbeat "host-2";
      EvInitRDSRootCert "host-2"])
  ∧ closeContext examples.server = WithCancel Background
  ∧ (is_Some (heartbeats examples.server !! "host-2")
     ↔ ∃ d, d ∈ Servers examples.cfg ∧ Name d = "host-2").
Proof.
  assert (H : New examples.world Background examples.cfg
              = (Returns (Ok examples.server),
                 [EvNewDynamic "host-1"; EvSync "host-1"; EvNewHeartbeat "host-1";
                  EvInitRDSRootCert "host-1"; EvNewHeartbeat "host-2";
                  EvInitRDSRootCert "host-2"]))
    by (vm_compute; reflexivity).
  split; [exact H|].
  destruct (New_worker_tables _ _ _ _ _ H) as (Hb & _ & X & _).
  split; [exact X | exact (Hb "host-2")].
Defined.

(** ** Construction stops at the first failure *)





(** ** Start launches each worker once *)

Lemma started_go {A : Type} (f : A → goroutine) (l : list A) :
  started (map (λ p, EvGo (f p)) l) = map f l.
Proof. induction l as [|x l IH]; [done|]. cbn. by rewrite IH. Qed.

Lemma Start_goroutines (W : World) (s : Server) :
  started (trace_of (Start W s))
  = (map (λ p, GoDynamicLabelStart p.1) (rangeMap W _ (dynamicLabels s))
     ++ map (λ p, GoHeartbeatRun p.1) (rangeMap W _ (heartbeats s)))%list
  ∧ length (trace_of (Start W s))
    = length (started (trace_of (Start W s))).
Proof.
  rewrite Start_unfold. cbn [trace_of snd]. unfold labelStarts, heartbeatRuns.
  rewrite started_app.
  rewrite (started_go (λ p : string * Dynamic, GoDynamicLabelStart p.1)).
  rewrite (started_go (λ p : string * Heartbeat, GoHeartbeatRun p.1)).
  split; [done|]. by rewrite !length_app, !length_map.
Qed.

Lemma range_keys (W : World) {A : Type} (m : gmap string A) (name : string) :
  rangeFaithful W →
  (∃ p, p ∈ rangeMap W A m ∧ p.1 = name) ↔ is_Some (m !! name).
Proof.
  intros Hrange. split.
  - intros ([k x] & Hp & <-). rewrite (Hrange A m) in Hp.
    apply elem_of_map_to_list in Hp. by exists x.
  - intros [x Hx]. exists (name, x). split; [|done].
    rewrite (Hrange A m). by apply elem_of_map_to_list.
Qed.

Lemma Start_membership (W : World) (s : Server) :
  rangeFaithful W →
  (∀ name, GoDynamicLabelStart name ∈ started (trace_of (Start W s))
           ↔ is_Some (dynamicLabels s !! name))
  ∧ (∀ name, GoHeartbeatRun name ∈ started (trace_of (Start W s))
             ↔ is_Some (heartbeats s !! name)).
Proof.
  intros Hrange. rewrite (proj1 (Start_goroutines W s)).
  split; intros name; rewrite elem_of_app, !list_elem_of_fmap,
    <- (range_keys W _ name Hrange).
  - split.
    + intros [(p & [= Hp] & Hin) | (p & Hp & _)]; [eauto | discriminate].
    + intros (p & Hin & <-). left. eauto.
  - split.
    + intros [(p & Hp & _) | (p & [= Hp] & Hin)]; [discriminate | eauto].
    + intros (p & Hin & <-). right. eauto.
Qed.

(** X17.  [Start] only starts goroutines: one label loop for each entry
    of the label table and one heartbeat loop for each entry of the
    heartbeat table, whatever the order in which the tables are visited;
    their number is the number of entries, so no worker is started
    twice. *)
Theorem Start_one_goroutine_per_worker (W : World) (s : Server) :
  rangeFaithful W →
  (∀ name, GoDynamicLabelStart name ∈ started (trace_of (Start W s))
           ↔ is_Some (dynamicLabels s !! name))
  ∧ (∀ name, GoHeartbeatRun name ∈ started (trace_of (Start W s))
             ↔ is_Some (heartbeats s !! name))
  ∧ length (started (trace_of (Start W s)))
    = (size (dynamicLabels s) + size (heartbeats s))%nat
  ∧ length (trace_of (Start W s))
    = (size (dynamicLabels s) + size (heartbeats s))%nat.
Proof.
  intros Hrange. destruct (Start_membership W s Hrange) as [Hl Hh].
  destruct (Start_goroutines W s) as [Hstarted Hlen].
  split; [exact Hl|]. split; [exact Hh|].
  assert (Hcount : length (started (trace_of (Start W s)))
                   = (size (dynamicLabels s) + size (heartbeats s))%nat).
  { rewrite Hstarted, length_app, !length_map.
    by rewrite (Hrange _ (dynamicLabels s)), (Hrange _ (heartbeats s)),
         !length_map_to_list. }
  split; [exact Hcount | by rewrite Hlen].
Qed.

Lemma Start_one_goroutine_per_worker_witness :
  rangeFaithful examples.world
  ∧ started (trace_of (Start examples.world examples.server))
    = [GoDynamicLabelStart "host-1"; GoHeartbeatRun "host-1";
       GoHeartbeatRun "host-2"]
  ∧ length (started (trace_of (Start examples.world examples.server)))
    = (size (dynamicLabels examples.server)
       + size (heartbeats examples.server))%nat.
Proof.
  assert (H : rangeFaithful examples.world) by (intros A m; reflexivity).
  split; [exact H|]. split; [vm_compute; reflexivity|].
  exact (proj1 (proj2 (proj2
           (Start_one_goroutine_per_worker examples.world examples.server H)))).
Defined.

(** X18.  On a server built by [New], [Start] runs a heartbeat under a
    name exactly when a configured descriptor has that name: descriptors
    sharing a name share one heartbeat. *)
Theorem New_then_Start_heartbeats (W : World) (ctx : context) (cfg : Config)
    (s : Server) (t : list event) (name : string) :
  rangeFaithful W →
  New W ctx cfg = (Returns (Ok s), t) →
  (GoHeartbeatRun name ∈ started (trace_of (Start W s))
   ↔ ∃ d, d ∈ Servers cfg ∧ Name d = name)
  ∧ length (List.filter isHeartbeatRun (started (trace_of (Start W s))))
    = size (serverNames (Servers cfg)).
Proof.
  intros Hrange Hnew.
  destruct (New_grows W ctx cfg s t Hnew) as (Hb & _).
  destruct (Start_membership W s Hrange) as [_ Hh]. split.
  - rewrite Hh, <- elem_of_dom, Hb. unfold serverNames.
    rewrite elem_of_list_to_set, list_elem_of_fmap. naive_solver.
  - rewrite (proj1 (Start_goroutines W s)), List.filter_app.
    rewrite <- Hb, size_dom, <- length_map_to_list, <- (Hrange _ (heartbeats s)).
    rewrite length_app.
    assert (H1 : ∀ l : list (string * Dynamic),
               List.filter isHeartbeatRun
                           (map (λ p, GoDynamicLabelStart p.1) l) = []).
    { induction l as [|p l IH]; [done|]. cbn. exact IH. }
    assert (H2 : ∀ l : list (string * Heartbeat),
               List.filter isHeartbeatRun (map (λ p, GoHeartbeatRun p.1) l)
               = map (λ p, GoHeartbeatRun p.1) l).
    { induction l as [|p l IH]; [done|]. cbn. by rewrite IH. }
    by rewrite H1, H2, length_map.
Qed.

Lemma New_then_Start_heartbeats_witness :
  rangeFaithful examples.world
  ∧ New examples.world Background examples.cfg
    = (Returns (Ok examples.server),
       [EvNewDynamic "host-1"; EvSync "host-1"; EvNewHeartbeat "host-1";
        EvInitRDSRootCert "host-1"; EvNewHeartbeat "host-2";
        EvInitRDSRootCert "host-2"])
  ∧ length (List.filter isHeartbeatRun
              (started (trace_of (Start examples.world examples.server))))
    = size (serverNames (Servers examples.cfg)).
Proof.
  assert (H1 : rangeFaithful examples.world) by (intros A m; reflexivity).
  assert (H2 : New examples.world Background examples.cfg
               = (Returns (Ok examples.server),
                  [EvNewDynamic "host-1"; EvSync "host-1"; EvNewHeartbeat "host-1";
                   EvInitRDSRootCert "host-1"; EvNewHeartbeat "host-2";
                   EvInitRDSRootCert "host-2"]))
    by (vm_compute; reflexivity).
  split; [exact H1|]. split; [exact H2|].
  exact (proj2 (New_then_Start_heartbeats _ _ _ _ _ "host-1" H1 H2)).
Defined.

(** ** Rendering a session (session.go) *)

Lemma append_nil (x : string) : "" ++ x = x.
Proof. reflexivity. Qed.

Lemma append_cons (c : Ascii.ascii) (s x : string) :
  String.String c s ++ x = String.String c (s ++ x).
Proof. reflexivity. Qed.

Lemma split_at_bracket (a a' r r' : string) :
  bracketFree a = true → bracketFree a' = true →
  a ++ ("]" ++ r) = a' ++ ("]" ++ r') →
  a = a' ∧ r = r'.
Proof.
  revert a'. induction a as [|c a IH]; intros [|c' a'];
    rewrite ?append_cons, ?append_nil; cbn [bracketFree].
  - intros _ _ [= ->]. done.
  - intros _ Hfree [= <- _]. by rewrite String.eqb_refl in Hfree.
  - intros Hfree _ [= -> _]. by rewrite String.eqb_refl in Hfree.
  - intros [_ Ha]%andb_prop [_ Ha']%andb_prop [= -> Heq].
    destruct (IH a' Ha Ha' Heq) as [-> ->]. done.
Qed.

(** X19.  The rendering of a session can be read back: two sessions in
    whose database name, user name, database user and requested database
    no closing bracket occurs are rendered to the same string only if they
    agree on all four. *)
Theorem sessionContext_String_injective (c c' : sessiongo.sessionContext)
    (d d' : DatabaseServer) (rendered : string) :
  sessiongo.db c = Some d → sessiongo.db c' = Some d' →
  bracketFree (DatabaseName d) = true →
  bracketFree (DatabaseName d') = true →
  bracketFree (Username (sessiongo.identity c)) = true →
  bracketFree (Username (sessiongo.identity c')) = true →
  bracketFree (sessiongo.dbUser c) = true →
  bracketFree (sessiongo.dbUser c') = true →
  bracketFree (sessiongo.dbName c) = true →
  bracketFree (sessiongo.dbName c') = true →
  sessiongo.String c = Returns rendered →
  sessiongo.String c' = Returns rendered →
  DatabaseName d = DatabaseName d'
  ∧ Username (sessiongo.identity c) = Username (sessiongo.identity c')
  ∧ sessiongo.dbUser c = sessiongo.dbUser c'
  ∧ sessiongo.dbName c = sessiongo.dbName c'.
Proof.
  intros Hd Hd' F1 F1' F2 F2' F3 F3' F4 F4'.
  unfold sessiongo.String. rewrite Hd, Hd'.
  intros [= <-] [= Heq]. rewrite ?append_cons, ?append_nil in Heq.
  apply (split_at_bracket _ _ _ _ F1' F1) in Heq as [E1 Heq].
  injection Heq as Heq.
  apply (split_at_bracket _ _ _ _ F2' F2) in Heq as [E2 Heq].
  injection Heq as Heq.
  apply (split_at_bracket _ _ _ _ F3' F3) in Heq as [E3 Heq].
  injection Heq as Heq.
  apply (split_at_bracket _ _ "" "" F4' F4) in Heq as [E4 _].
  by rewrite E1, E2, E3, E4.
Qed.

Lemma sessionContext_String_injective_witness :
  sessiongo.String examples.legacySession
  = Returns "db[test] identity[alice] dbUser[postgres] dbName[metrics]"
  ∧ DatabaseName examples.testDb = DatabaseName examples.testDb
  ∧ Username (sessiongo.identity examples.legacySession)
    = Username (sessiongo.identity examples.legacySession)
  ∧ sessiongo.dbUser examples.legacySession
    = sessiongo.dbUser examples.legacySession
  ∧ sessiongo.dbName examples.legacySession
    = sessiongo.dbName examples.legacySession.
Proof.
  assert (H : sessiongo.String examples.legacySession
              = Returns "db[test] identity[alice] dbUser[postgres] dbName[metrics]")
    by reflexivity.
  split; [exact H|].
  exact (sessionContext_String_injective examples.legacySession
           examples.legacySession examples.testDb examples.testDb _
           eq_refl eq_refl eq_refl eq_refl eq_refl eq_refl eq_refl eq_refl
           eq_refl eq_refl H H).
Defined.

(** ** Start and Close address the same workers *)

(** X20.  [Close] closes exactly the workers [Start] starts: a label
    worker is closed under a name exactly when its loop is started under
    that name, and likewise for the heartbeats; the only further call of
    [Close] is the cancellation. *)
Theorem Start_Close_pairing (W : World) (s : Server) :
  rangeFaithful W →
  (∀ name, EvGo (GoDynamicLabelStart name) ∈ trace_of (Start W s)
           ↔ EvDynamicLabelClose name ∈ trace_of (Close W s))
  ∧ (∀ name, EvGo (GoHeartbeatRun name) ∈ trace_of (Start W s)
             ↔ EvHeartbeatClose name ∈ trace_of (Close W s))
  ∧ length (trace_of (Close W s)) = S (length (trace_of (Start W s))).
Proof.
  intros Hrange. rewrite Start_unfold, Close_unfold. cbn [trace_of snd].
  unfold labelStarts, heartbeatRuns, labelCloses, heartbeatCloses.
  split; [|split].
  - intros name.
    rewrite !elem_of_app, list_elem_of_singleton, !list_elem_of_fmap.
    transitivity (∃ p, p ∈ rangeMap W _ (dynamicLabels s) ∧ p.1 = name).
    + split; [|intros (p & Hin & <-); left; eauto].
      intros [(p & [= Hp] & Hin) | (p & Hp & _)]; [eauto | discriminate].
    + split; [intros (p & Hin & <-); left; eauto|].
      intros [(p & [= Hp] & Hin) | [Hc | (p & Hp & _)]];
        [eauto | discriminate..].
  - intros name.
    rewrite !elem_of_app, list_elem_of_singleton, !list_elem_of_fmap.
    transitivity (∃ p, p ∈ rangeMap W _ (heartbeats s) ∧ p.1 = name).
    + split; [|intros (p & Hin & <-); right; eauto].
      intros [(p & Hp & _) | (p & [= Hp] & Hin)]; [discriminate | eauto].
    + split; [intros (p & Hin & <-); right; right; eauto|].
      intros [(p & Hp & _) | [Hc | (p & [= Hp] & Hin)]];
        [discriminate.. | eauto].
  - rewrite !length_app, !length_map. cbn. lia.
Qed.

Lemma Start_Close_pairing_witness :
  rangeFaithful examples.world
  ∧ length (trace_of (Close examples.world examples.server))
    = S (length (trace_of (Start examples.world examples.server)))
  ∧ length (trace_of (Close examples.world examples.server)) = 4%nat.
Proof.
  assert (H : rangeFaithful examples.world) by (intros A m; reflexivity).
  split; [exact H|]. split; [|vm_compute; reflexivity].
  exact (proj2 (proj2 (Start_Close_pairing examples.world examples.server H))).
Defined.

(** ** What the return value of handleConnection tells *)

(** X21.  [handleConnection] returns nil exactly when a session was
    authorized, its stream writer was created, an engine was dispatched
    and the engine run returned nil; every other path that returns gives
    an error. *)
Theorem handleConnection_nil_iff (W : World) (s : Server) (ctx : context)
    (conn : Conn) :
  outcome_of (handleConnection W s ctx conn) = Returns None
  ↔ ∃ sessionCtx streamWriter engine,
      outcome_of (authorize W s ctx) = Returns (Ok sessionCtx)
      ∧ newStreamWriter W sessionCtx = Ok streamWriter
      ∧ dispatch s sessionCtx streamWriter = (Returns (Ok engine), [])
      ∧ (EngineHandleConnection W engine ctx sessionCtx conn).1 = Returns None.
Proof.
  destruct (authorize W s ctx) as [[[sc|e]|p'] t] eqn:Hauth;
    cbn [trace_of outcome_of fst snd] in *.
  - destruct (newStreamWriter W sc) as [w|e] eqn:Hnew.
    + rewrite (handleConnection_streaming W s ctx conn sc t w Hauth Hnew).
      cbn [outcome_of fst]. unfold streamingOutcome.
      destruct (dispatch_after_authorize_total s sc w) as [[engine Hd] | [e Hd]];
        [by eapply authorize_session_target | |]; rewrite Hd; cbn [fst].
      * rewrite (proj2 (runEngine_trace _ _ _ _ _)). split.
        -- destruct (EngineHandleConnection W engine ctx sc conn).1
             as [[e|]|p''] eqn:Hrun; try discriminate.
           intros _. eauto 10.
        -- intros (sc' & w' & engine' & [= <-] & Hw & Hd' & Hrun).
           rewrite Hnew in Hw. injection Hw as <-.
           rewrite Hd in Hd'. injection Hd' as <-. by rewrite Hrun.
      * split; [discriminate|].
        intros (sc' & w' & engine' & [= <-] & Hw & Hd' & _).
        rewrite Hnew in Hw. injection Hw as <-. congruence.
    + rewrite (handleConnection_no_writer W s ctx conn sc t e Hauth Hnew).
      cbn. split; [discriminate|].
      intros (sc' & w' & engine' & [= <-] & Hw & _). congruence.
  - destruct (handleConnection_unauthorized W s ctx conn) as [_ ->];
      rewrite Hauth; cbn; [done|]. split; [discriminate|].
    by intros (sc' & w' & engine' & Hsc & _).
  - destruct (handleConnection_unauthorized W s ctx conn) as [_ ->];
      rewrite Hauth; cbn; [done|]. split; [discriminate|].
    by intros (sc' & w' & engine' & Hsc & _).
Qed.

(** ** Errors are logged once *)

Lemma errorLogs_app (t1 t2 : list event) :
  errorLogs (t1 ++ t2) = (errorLogs t1 ++ errorLogs t2)%list.
Proof.
  induction t1 as [|e t1 IH]; [done|].
  destruct e as [[| |] message| | | | | | | | | | | | | | | | |];
    cbn; by rewrite ?IH.
Qed.

Lemma handleConnection_no_error_log (W : World) (s : Server) (ctx : context)
    (conn : Conn) :
  errorLogs (trace_of (handleConnection W s ctx conn)) = [].
Proof.
  assert (Hnone : errorLogs (trace_of (authorize W s ctx)) = [])
    by (by destruct (authorize_traces W s ctx) as [-> | [-> | [-> | ->]]]).
  destruct (authorize W s ctx) as [[[sc|e]|p] t] eqn:Hauth;
    cbn [trace_of outcome_of fst snd] in *.
  - destruct (newStreamWriter W sc) as [w|e] eqn:Hnew.
    + rewrite (handleConnection_streaming W s ctx conn sc t w Hauth Hnew).
      cbn [trace_of snd]. rewrite errorLogs_app, Hnone. cbn [errorLogs app].
      rewrite errorLogs_app. unfold streamingOutcome.
      destruct (dispatch s sc w) as [[[engine|e]|p] td]; cbn [snd];
        [|done..].
      rewrite (proj1 (runEngine_trace _ _ _ _ _)). cbn.
      rewrite app_nil_r.
      by induction (EngineHandleConnection W engine ctx sc conn).2.
    + rewrite (handleConnection_no_writer W s ctx conn sc t e Hauth Hnew).
      cbn [trace_of snd]. by rewrite errorLogs_app, Hnone.
  - destruct (handleConnection_unauthorized W s ctx conn) as [-> _];
      rewrite Hauth; cbn; done.
  - destruct (handleConnection_unauthorized W s ctx conn) as [-> _];
      rewrite Hauth; cbn; done.
Qed.

(** X22.  [HandleConnection] logs at error level at most once per
    connection, and it does so exactly when the handshake fails, the
    identity cannot be extracted, or [handleConnection] returns an error;
    a connection served to the end, and one whose handling panics, leave
    no error line. *)
Theorem HandleConnection_logs_failure_once (W : World) (s : Server)
    (conn : Conn) :
  errorLogs (trace_of (HandleConnection W s conn))
  = match Handshake W (TLSConfig (config s)) conn with
    | Some _ => ["Failed to perform TLS handshake."]
    | None =>
        match WrapContext W (middleware s) Background conn with
        | Err _ => ["Failed to extract identity from connection."]
        | Ok ctx =>
            match outcome_of (handleConnection W s ctx conn) with
            | Returns (Some _) => ["Failed to handle connection."]
            | _ => []
            end
        end
    end.
Proof.
  unfold HandleConnection.
  destruct (Handshake W (TLSConfig (config s)) conn) as [err|]; [done|].
  destruct (WrapContext W (middleware s) Background conn) as [ctx|err]; [|done].
  pose proof (handleConnection_no_error_log W s ctx conn) as Hnone.
  destruct (handleConnection W s ctx conn) as [[[e|]|p] t];
    cbn [trace_of snd] in Hnone; cbn.
  all: rewrite ?errorLogs_app, ?Hnone; try done.
  all: by rewrite errorLogs_app, errorLogs_app, Hnone.
Qed.
